(** * WifiSignalSimulator: free-space loss between a train and two access points

    A shallow embedding of [wifi_signal_simulator.py].

    Modelling choices, fixed once for the whole development:
    - Python floats are idealised as the real numbers of the Standard
      Library ([R]); [math.hypot] is the Euclidean norm and [math.log10] the
      base-ten logarithm, which raises [ValueError] outside [0 < x].
    - The idealisation stands for the script while its numbers stay finite:
      [in_range], [finite_run], [valid_run] and [int_in_range] bound the
      inputs so that no conversion of an int to a float raises
      [OverflowError] and no product or sum becomes infinite.  Statements
      that would fail beyond these bounds carry them as hypotheses; outside
      them the script raises [OverflowError] or prints [inf], which the
      model does not describe.  Exhausted memory is not modelled either.
    - Where rounding decides a property, the loss is modelled a second time
      in binary64 arithmetic ([b64_round], [compute_free_space_loss_b64]).
    - Python ints are [Z]; strings are [string].
    - Exceptions are values of [exn]; a computation that may raise returns a
      [result].  Code with effects (standard output, the file system) runs
      in the state-and-exception monad [io]. *)

From Stdlib Require Import ZArith Reals Lra Psatz Lia List String Ascii.
From Stdlib Require Import Decimal DecimalString DecimalPos.
From stdpp Require Import base strings gmap.
Import ListNotations.

Local Open Scope Z_scope.
Local Open Scope string_scope.

(** ** Exceptions and results *)

Inductive exn : Type :=
| ValueError (msg : string)
| SystemExit (code : Z).

Inductive result (A : Type) : Type :=
| Ret (a : A)
| Raise (e : exn).
Arguments Ret {A} a.
Arguments Raise {A} e.

Definition rbind {A B} (r : result A) (k : A -> result B) : result B :=
  match r with
  | Ret a => k a
  | Raise e => Raise e
  end.

Notation "'let!' x ':=' c1 'in' c2" := (rbind c1 (fun x => c2))
  (at level 10, x name, c1 at level 100, c2 at level 200).

Definition is_ValueError (e : exn) : Prop := exists msg, e = ValueError msg.

(** ** Library primitives used by the script *)

(** [str(n)] for a Python int. *)
Definition str_int (n : Z) : string := NilZero.string_of_int (Z.to_int n).

(** [math.hypot(a, b)]. *)
Definition hypot (a b : R) : R := sqrt (a * a + b * b).

(** The base-ten logarithm on the positive reals. *)
Definition Rlog10 (x : R) : R := (ln x / ln 10)%R.

Definition math_domain_error : exn := ValueError "math domain error".

(** [math.log10(x)]: raises [ValueError] when [x] is not positive. *)
Definition log10 (x : R) : result R :=
  if Rlt_dec 0 x then Ret (Rlog10 x) else Raise math_domain_error.

(** ** The two pure functions of the script *)

Definition ap_number_error (AP_number : Z) : exn :=
  ValueError (str_int AP_number ++ " must be either 1 or 2.").

Definition current_signal_distance
    (AP_number : Z) (starting_train_distance inter_AP_distance time velocity : R)
    : result R :=
  if (AP_number =? 1)%Z then
    let a := starting_train_distance in
    let b := (velocity * time)%R in
    Ret (hypot a b)
  else if (AP_number =? 2)%Z then
    let a := starting_train_distance in
    let b := (inter_AP_distance - velocity * time)%R in
    Ret (hypot a b)
  else Raise (ap_number_error AP_number).

Definition band_error (band : string) : exn :=
  ValueError (band ++ " is an unsupported frequency or is incorrectly formatted.").

(** The default of the keyword parameter [band]; a call that leaves [band]
    out passes it. *)
Definition default_band : string := "2.4".

Definition constant_factor : R := 21.984%R.

Definition compute_free_space_loss (distance : R) (band : string) : result R :=
  let! wavelength :=
    (if String.eqb band "2.4" then Ret 0.12491%R
     else if String.eqb band "5.0" then Ret 0.05996%R
     else Raise (band_error band)) in
  let! lw := log10 wavelength in
  let! ld := log10 distance in
  Ret (-20 * lw + 20 * ld + constant_factor)%R.

(** The closed form of the loss on a band of wavelength [wavelength]. *)
Definition loss_formula (wavelength distance : R) : R :=
  (-20 * Rlog10 wavelength + 20 * Rlog10 distance + 21.984)%R.

(** ** Fixed-point formatting: [format_string.format(x)] *)

Definition digit_char (d : Z) : ascii := ascii_of_nat (48 + Z.to_nat d).

(** The [p] low decimal digits of [m], most significant first. *)
Fixpoint frac_digits (p : nat) (m : Z) : string :=
  match p with
  | O => ""
  | S p' => frac_digits p' (m / 10) ++ String (digit_char (m mod 10)) ""
  end.

(** Nearest integer of a real, ties to the even neighbour. *)
Definition round_half_even (x : R) : Z :=
  let f := Int_part x in
  let r := frac_part x in
  if Rlt_dec r (1 / 2) then f
  else if Rlt_dec (1 / 2) r then f + 1
  else if Z.even f then f else f + 1.

(** The digits of [|x|] rounded to [p] decimals: the integer digits and,
    when [p] is not zero, a point and exactly [p] digits. *)
Definition unsigned_part (p : nat) (x : R) : string :=
  let m := round_half_even (Rabs x * 10 ^ p)%R in
  str_int (m / 10 ^ Z.of_nat p)
    ++ (match p with O => "" | S _ => "." ++ frac_digits p m end).

(** The presentation type [f] with precision [p]: the sign of [x] (kept
    when a negative value rounds to zero), then its unsigned part. *)
Definition format_fixed (p : nat) (x : R) : string :=
  (if Rlt_dec x 0 then "-" else "") ++ unsigned_part p x.

(** The largest precision [format] accepts for a float: that of a C [int]. *)
Definition max_precision : Z := 2 ^ 31 - 1.

(** [("{0:." + str(mantissa_length) + "f}").format(x)]: a negative length
    gives the specification [.-3f], which [format] rejects; so it does a
    precision beyond [max_precision]. *)
Definition format_string_format (mantissa_length : Z) (x : R) : result string :=
  if (mantissa_length <? 0)%Z then Raise (ValueError "Format specifier missing precision")
  else if (2 ^ 63 - 1 <? mantissa_length)%Z then
    Raise (ValueError "Too many decimal digits in format string")
  else if (max_precision <? mantissa_length)%Z then Raise (ValueError "precision too big")
  else Ret (format_fixed (Z.to_nat mantissa_length) x).

(** ** Character classes and the shape of a fixed-point numeral *)

Definition is_space (c : ascii) : bool :=
  let n := nat_of_ascii c in
  ((n =? 32) || ((9 <=? n) && (n <=? 13)))%nat.

Definition is_digit (c : ascii) : bool :=
  let n := nat_of_ascii c in ((48 <=? n) && (n <=? 57))%nat.

Fixpoint all_digits (s : string) : bool :=
  match s with
  | "" => true
  | String c s' => is_digit c && all_digits s'
  end.

(** The text before the first point and, when there is one, the text after. *)
Fixpoint split_point (s : string) : string * option string :=
  match s with
  | "" => ("", None)
  | String c s' =>
      if Ascii.eqb c "." then ("", Some s')
      else let '(ip, fp) := split_point s' in (String c ip, fp)
  end.

(** [s] is a fixed-point numeral with exactly [p] digits after the point
    (and no point at all when [p] is zero). *)
Definition is_fixed_point (p : nat) (s : string) : bool :=
  let body :=
    match s with
    | String c r => if Ascii.eqb c "-" then r else s
    | "" => s
    end in
  match split_point body with
  | (ip, None) => (p =? 0)%nat && negb (String.eqb ip "") && all_digits ip
  | (ip, Some fp) =>
      negb (p =? 0)%nat && negb (String.eqb ip "") && all_digits ip
      && all_digits fp && (String.length fp =? p)%nat
  end.

Fixpoint digits_to_Z (s : string) (acc : Z) : Z :=
  match s with
  | "" => acc
  | String c s' =>
      if is_digit c then digits_to_Z s' (10 * acc + (Z.of_nat (nat_of_ascii c) - 48))
      else digits_to_Z s' acc
  end.

(** The integer a fixed-point numeral denotes once its point is dropped:
    for a numeral with [p] digits after the point, its value times [10^p]. *)
Definition numeral_scaled (s : string) : Z :=
  match s with
  | String c r => if Ascii.eqb c "-" then - digits_to_Z r 0 else digits_to_Z s 0
  | "" => 0
  end.

(** ** The sampling loop of [main] (lines 78 to 88) *)

Section Sampling.
Variables ap_distance train_distance train_velocity granularity : R.
Variable mantissa_length : Z.

(** One pass of the loop body for each [t] of [range]; the two lists are
    the accumulators the source appends to. *)
Fixpoint sample_loop (ts : list Z) (AP1_signal_losses AP2_signal_losses : list string)
    : result (list string * list string) :=
  match ts with
  | [] => Ret (AP1_signal_losses, AP2_signal_losses)
  | t :: ts' =>
      let time := (IZR t * granularity)%R in
      let! AP1_distance :=
        current_signal_distance 1 train_distance ap_distance time train_velocity in
      let! AP1_loss := compute_free_space_loss AP1_distance default_band in
      let! AP1_signal_loss := format_string_format mantissa_length AP1_loss in
      let AP1_signal_losses := (AP1_signal_losses ++ [AP1_signal_loss])%list in
      let! AP2_distance :=
        current_signal_distance 2 train_distance ap_distance time train_velocity in
      let! AP2_loss := compute_free_space_loss AP2_distance default_band in
      let! AP2_signal_loss := format_string_format mantissa_length AP2_loss in
      let AP2_signal_losses := (AP2_signal_losses ++ [AP2_signal_loss])%list in
      sample_loop ts' AP1_signal_losses AP2_signal_losses
  end.

Definition sample_losses (sample_count : Z) : result (list string * list string) :=
  sample_loop (seqZ 0 sample_count) [] [].

(** What one pass computes for one AP: the formatted loss at sample [t]. *)
Definition sample_entry (AP_number t : Z) : result string :=
  let! distance :=
    current_signal_distance AP_number train_distance ap_distance
      (IZR t * granularity)%R train_velocity in
  let! loss := compute_free_space_loss distance default_band in
  format_string_format mantissa_length loss.

(** [losses] holds at index [i] the loss of AP [AP_number] at time
    [i * granularity] on [band], as a fixed-point numeral with
    [mantissa_length] digits after the point: the numeral read as a number
    is the loss to within half a unit of its last digit. *)
Definition holds_loss_at (losses : list string) (AP_number : Z) (band : string)
    (i : Z) : Prop :=
  exists distance loss,
    current_signal_distance AP_number train_distance ap_distance
      (IZR i * granularity)%R train_velocity = Ret distance
    /\ compute_free_space_loss distance band = Ret loss
    /\ exists entry,
         losses !! Z.to_nat i = Some entry
         /\ entry = format_fixed (Z.to_nat mantissa_length) loss
         /\ is_fixed_point (Z.to_nat mantissa_length) entry = true
         /\ (Rabs (IZR (numeral_scaled entry) - loss * 10 ^ Z.to_nat mantissa_length)
              <= 1 / 2)%R.

(** [s] is the printed loss of AP [AP_number] at sample [i] on the 2.4 GHz
    wavelength, which lies strictly below the loss of band 5.0 there. *)
Definition is_loss_24_at (AP_number : Z) (i : nat) (s : string) : Prop :=
  exists distance,
    current_signal_distance AP_number train_distance ap_distance
      (IZR (Z.of_nat i) * granularity)%R train_velocity = Ret distance
    /\ compute_free_space_loss distance "2.4" = Ret (loss_formula 0.12491 distance)
    /\ s = format_fixed (Z.to_nat mantissa_length) (loss_formula 0.12491 distance)
    /\ exists loss50,
         compute_free_space_loss distance "5.0" = Ret loss50
         /\ (loss_formula 0.12491 distance < loss50)%R.
End Sampling.

(** ** Effects: standard output and the file system *)

Record World : Type := mkWorld {
  stdout : string;
  files : gmap string string
}.

Definition io (A : Type) : Type := World -> World * result A.

Definition io_ret {A} (a : A) : io A := fun w => (w, Ret a).

Definition io_bind {A B} (c : io A) (k : A -> io B) : io B :=
  fun w => match c w with
           | (w', Ret a) => k a w'
           | (w', Raise e) => (w', Raise e)
           end.

Notation "'do!' x ':=' c1 'in' c2" := (io_bind c1 (fun x => c2))
  (at level 10, x name, c1 at level 100, c2 at level 200).
Notation "c1 >>> c2" := (io_bind c1 (fun _ => c2))
  (at level 92, right associativity).

Definition raise {A} (e : exn) : io A := fun w => (w, Raise e).

Definition lift {A} (r : result A) : io A := fun w => (w, r).

(** [sys.exit(code)]. *)
Definition sys_exit {A} (code : Z) : io A := raise (SystemExit code).

(** [try: body  except ValueError as v: handler(v)]; [SystemExit] passes. *)
Definition try_except_ValueError {A} (body : io A) (handler : string -> io A) : io A :=
  fun w => match body w with
           | (w', Raise (ValueError msg)) => handler msg w'
           | r => r
           end.

Fixpoint for_each {A} (l : list A) (body : A -> io unit) : io unit :=
  match l with
  | [] => io_ret tt
  | x :: l' => body x >>> for_each l' body
  end.

Definition nl : string := String (ascii_of_nat 10) "".

(** The [print] statement: the text and a newline on standard output. *)
Definition print (s : string) : io unit :=
  fun w => (mkWorld (stdout w ++ s ++ nl) (files w), Ret tt).

(** [open(name, "w")]: the file is created, or truncated when it exists.
    The working directory is taken to be writable. *)
Definition open_w (name : string) : io unit :=
  fun w => (mkWorld (stdout w) (<[name := ""]> (files w)), Ret tt).

(** [f.write(s)] on the file opened under [name]. *)
Definition f_write (name s : string) : io unit :=
  fun w => (mkWorld (stdout w) (alter (fun c => c ++ s) name (files w)), Ret tt).

(** ** [main] *)

Definition out_name : string := "wifi_signal_simulator.out".

Definition main (ap_distance train_distance train_velocity granularity : R)
    (sample_count mantissa_length : Z) : io unit :=
  do! losses := lift (sample_losses ap_distance train_distance train_velocity
                        granularity mantissa_length sample_count) in
  let AP1_signal_losses := fst losses in
  let AP2_signal_losses := snd losses in
  open_w out_name >>>
  for_each AP1_signal_losses (fun loss => f_write out_name (loss ++ " ")) >>>
  f_write out_name nl >>>
  for_each AP2_signal_losses (fun loss => f_write out_name (loss ++ " ")) >>>
  sys_exit 0.

(** The default values of [main]'s keyword parameters. *)
Definition default_granularity : R := 0.001%R.
Definition default_sample_count : Z := 5000.
Definition default_mantissa_length : Z := 3.

(** ** The script: [usage] and the [__main__] block *)

(** [sys.argv[0]]; the interpreter always provides it. *)
Definition argv0 (sys_argv : list string) : string := nth 0 sys_argv "".

Definition usage (sys_argv : list string) : io unit :=
  print ("Usage: " ++ nl) >>>
  print (argv0 sys_argv ++ " <inter-AP-distance> <train-AP-distance> <train-velocity>") >>>
  print "Suggested values for execution: " >>>
  print (argv0 sys_argv ++ " 100 10 92").

Fixpoint lstrip (s : string) : string :=
  match s with
  | String c s' => if is_space c then lstrip s' else s
  | "" => ""
  end.

Fixpoint rstrip (s : string) : string :=
  match s with
  | String c s' =>
      match rstrip s' with
      | "" => if is_space c then "" else String c ""
      | r => String c r
      end
  | "" => ""
  end.

Fixpoint digits_value (s : string) (acc : Z) : option Z :=
  match s with
  | "" => Some acc
  | String c s' =>
      if is_digit c then digits_value s' (10 * acc + (Z.of_nat (nat_of_ascii c) - 48))
      else None
  end.

Fixpoint contains (c : ascii) (s : string) : bool :=
  match s with
  | "" => false
  | String a s' => Ascii.eqb a c || contains c s'
  end.

Definition double_quote : ascii := ascii_of_nat 34.
Definition backslash : ascii := ascii_of_nat 92.

Definition hex_digit (n : nat) : ascii :=
  if (n <? 10)%nat then ascii_of_nat (48 + n) else ascii_of_nat (87 + n).

(** One character of [repr(s)] inside the quotes [quote]. *)
Definition repr_char (quote c : ascii) : string :=
  let n := nat_of_ascii c in
  if Ascii.eqb c quote || Ascii.eqb c backslash then String backslash (String c "")
  else if (n =? 9)%nat then String backslash "t"
  else if (n =? 10)%nat then String backslash "n"
  else if (n =? 13)%nat then String backslash "r"
  else if ((n <? 32) || (127 <=? n))%nat then
    String backslash (String "x" (String (hex_digit (n / 16)) (String (hex_digit (n mod 16)) "")))
  else String c "".

Fixpoint repr_body (quote : ascii) (s : string) : string :=
  match s with
  | "" => ""
  | String c s' => repr_char quote c ++ repr_body quote s'
  end.

(** [repr(s)] of a byte string: single quotes, unless [s] holds a single
    quote and no double quote. *)
Definition py_repr (s : string) : string :=
  let quote :=
    if contains "'" s && negb (contains double_quote s) then double_quote else "'"%char in
  String quote (repr_body quote s ++ String quote "").

(** [int(s)] for a string in base ten: surrounding white space, an optional
    sign, at least one digit. *)
Definition py_int (s : string) : result Z :=
  let invalid := ValueError ("invalid literal for int() with base 10: " ++ py_repr s) in
  let body := rstrip (lstrip s) in
  let '(sign, ds) :=
    match body with
    | String "-" r => (-1, r)
    | String "+" r => (1, r)
    | _ => (1, body)
    end in
  match ds, digits_value ds 0 with
  | String _ _, Some v => Ret (sign * v)
  | _, _ => Raise invalid
  end.

Definition script (sys_argv : list string) : io unit :=
  if negb (length sys_argv =? 4)%nat then
    usage sys_argv >>> sys_exit 1
  else
    try_except_ValueError
      (do! a := lift (py_int (nth 1 sys_argv "")) in
       do! b := lift (py_int (nth 2 sys_argv "")) in
       do! c := lift (py_int (nth 3 sys_argv "")) in
       main (IZR a) (IZR b) (IZR c)
            default_granularity default_sample_count default_mantissa_length)
      (fun msg => usage sys_argv >>> raise (ValueError msg)).

(** The status the process ends with: the code of [sys.exit], [1] after an
    uncaught exception, [0] when the script runs off its end. *)
Definition exit_status {A} (r : result A) : Z :=
  match r with
  | Ret _ => 0
  | Raise (SystemExit code) => code
  | Raise (ValueError _) => 1
  end.

(** ** Observations on the output *)

Definition newline : ascii := ascii_of_nat 10.

Fixpoint no_newline (s : string) : bool :=
  match s with
  | "" => true
  | String c s' => negb (Ascii.eqb c newline) && no_newline s'
  end.

(** [s.split(c)]. *)
Fixpoint split_on (c : ascii) (s : string) : list string :=
  match s with
  | "" => [""]
  | String a s' =>
      if Ascii.eqb a c then "" :: split_on c s'
      else match split_on c s' with
           | h :: t => String a h :: t
           | [] => [String a ""]
           end
  end.

(** What the two write loops of [main] put on one line. *)
Definition line_of (losses : list string) : string :=
  fold_right (fun loss rest => (loss ++ " ") ++ rest) "" losses.

(** The text [usage] prints when the script is run as [prog]. *)
Definition usage_text (prog : string) : string :=
  ("Usage: " ++ nl) ++ nl
  ++ (prog ++ " <inter-AP-distance> <train-AP-distance> <train-velocity>") ++ nl
  ++ "Suggested values for execution: " ++ nl
  ++ (prog ++ " 100 10 92") ++ nl.

(** ** Further observations *)

(** No character of [s] is [c]. *)
Fixpoint no_char (c : ascii) (s : string) : bool :=
  match s with
  | "" => true
  | String a s' => negb (Ascii.eqb a c) && no_char c s'
  end.

(** Every character of [s] is a digit or the point: no sign, no exponent. *)
Fixpoint digits_or_point (s : string) : bool :=
  match s with
  | "" => true
  | String a s' => (is_digit a || Ascii.eqb a ".") && digits_or_point s'
  end.


(** The exception of the first of the three arguments, in the order the
    call evaluates them, that [int] rejects; [None] when all three parse. *)
Definition first_int_error (sa sb sc : string) : option exn :=
  match py_int sa with
  | Raise e => Some e
  | Ret _ =>
      match py_int sb with
      | Raise e => Some e
      | Ret _ =>
          match py_int sc with
          | Raise e => Some e
          | Ret _ => None
          end
      end
  end.

(** ** The range in which the numbers of a run stay finite

    Python floats are binary64 numbers: a product beyond about [1.8e308] is
    an infinity, [hypot] and the conversion of an int raise [OverflowError]
    there.  The real numbers of this development have no such limit, so a
    statement about a whole run is made for runs whose numbers stay well
    inside the finite range. *)

Definition magnitude_bound : R := IZR (2 ^ 1000).

Definition in_range (x : R) : Prop := (Rabs x <= magnitude_bound)%R.

(** The arguments, every sample time and every along-track offset of the
    run are in range, and the sample count is one [range] accepts. *)
Definition finite_run (ap_distance train_distance train_velocity granularity : R)
    (sample_count : Z) : Prop :=
  in_range ap_distance /\ in_range train_distance
  /\ in_range train_velocity /\ in_range granularity
  /\ sample_count < 2 ^ 63
  /\ forall i : Z, 0 <= i < sample_count ->
       in_range (IZR i * granularity)
       /\ in_range (train_velocity * (IZR i * granularity)).

(** A run the loop completes with numerals: finite, the train off the line
    of the APs, a precision [format] accepts. *)
Definition valid_run (ap_distance train_distance train_velocity granularity : R)
    (sample_count mantissa_length : Z) : Prop :=
  finite_run ap_distance train_distance train_velocity granularity sample_count
  /\ train_distance <> 0%R
  /\ 0 <= mantissa_length <= max_precision.

(** An integer argument of the command line that is in range. *)
Definition int_in_range (n : Z) : bool := (Z.abs n <=? 2 ^ 1000)%Z.

(** An argument is in range when [int] rejects it or gives an integer in range. *)
Definition arg_in_range (s : string) : bool :=
  match py_int s with
  | Ret n => int_in_range n
  | Raise _ => true
  end.

(** ** Double precision

    The loss as binary64 arithmetic computes it: every operation gives the
    binary64 number nearest to the exact result, ties to the even
    significand; [math.log10] is taken to be correctly rounded.  Overflow
    does not arise for the losses and is not modelled. *)







(** ** Properties of the pure functions *)

Lemma ln10_pos : (0 < ln 10)%R.
Proof. rewrite <- ln_1. apply ln_increasing; lra. Qed.

Lemma log10_pos (x : R) : (0 < x)%R -> log10 x = Ret (Rlog10 x).
Proof. intros Hx. unfold log10. destruct (Rlt_dec 0 x); [reflexivity | contradiction]. Qed.

Lemma log10_nonpos (x : R) : (x <= 0)%R -> log10 x = Raise math_domain_error.
Proof. intros Hx. unfold log10. destruct (Rlt_dec 0 x); [lra | reflexivity]. Qed.

Lemma Rlog10_increasing (x y : R) : (0 < x)%R -> (x < y)%R -> (Rlog10 x < Rlog10 y)%R.
Proof.
  intros Hx Hxy. unfold Rlog10, Rdiv.
  apply Rmult_lt_compat_r.
  - apply Rinv_0_lt_compat, ln10_pos.
  - now apply ln_increasing.
Qed.

Lemma hypot_nonneg (a b : R) : (0 <= hypot a b)%R.
Proof. apply sqrt_pos. Qed.

Lemma hypot_pos (a b : R) : a <> 0%R -> (0 < hypot a b)%R.
Proof.
  intros Ha. unfold hypot. apply sqrt_lt_R0.
  assert (0 < a * a)%R by (destruct (Rtotal_order a 0) as [H | [H | H]]; nra).
  nra.
Qed.

Lemma hypot_0_r (a : R) : (0 <= a)%R -> hypot a 0 = a.
Proof.
  intros Ha. unfold hypot. rewrite Rmult_0_r, Rplus_0_r. now apply sqrt_square.
Qed.

Lemma rbind_Ret {A B} (a : A) (k : A -> result B) : rbind (Ret a) k = k a.
Proof. reflexivity. Qed.

Lemma wavelength_24_pos : (0 < 0.12491)%R.
Proof. lra. Qed.

Lemma wavelength_50_pos : (0 < 0.05996)%R.
Proof. lra. Qed.

Lemma compute_free_space_loss_24 (d : R) :
  (0 < d)%R -> compute_free_space_loss d "2.4" = Ret (loss_formula 0.12491 d).
Proof.
  intros Hd. unfold compute_free_space_loss.
  rewrite String.eqb_refl, rbind_Ret.
  rewrite (log10_pos _ wavelength_24_pos), rbind_Ret.
  rewrite (log10_pos _ Hd), rbind_Ret.
  reflexivity.
Qed.

Lemma compute_free_space_loss_50 (d : R) :
  (0 < d)%R -> compute_free_space_loss d "5.0" = Ret (loss_formula 0.05996 d).
Proof.
  intros Hd. unfold compute_free_space_loss.
  replace (String.eqb "5.0" "2.4") with false by reflexivity.
  rewrite String.eqb_refl, rbind_Ret.
  rewrite (log10_pos _ wavelength_50_pos), rbind_Ret.
  rewrite (log10_pos _ Hd), rbind_Ret.
  reflexivity.
Qed.

Lemma compute_free_space_loss_bad_band (d : R) (band : string) :
  band <> "2.4" -> band <> "5.0" ->
  compute_free_space_loss d band = Raise (band_error band).
Proof.
  intros H24 H50. unfold compute_free_space_loss.
  destruct (String.eqb_spec band "2.4") as [E | _]; [contradiction |].
  destruct (String.eqb_spec band "5.0") as [E | _]; [contradiction |].
  reflexivity.
Qed.


Lemma loss_formula_band_gap (d : R) :
  (loss_formula 0.12491 d < loss_formula 0.05996 d)%R.
Proof.
  unfold loss_formula.
  assert (Rlog10 0.05996 < Rlog10 0.12491)%R by (apply Rlog10_increasing; lra).
  lra.
Qed.

(** ** The distance function *)

(** C1: for all real inputs, the distance to AP 1 is the Euclidean norm of
    the cross-track distance and [velocity * time], and the distance to AP 2
    the Euclidean norm of the cross-track distance and
    [inter_AP_distance - velocity * time]. *)
Theorem current_signal_distance_euclidean (d inter t v : R) :
  current_signal_distance 1 d inter t v = Ret (hypot d (v * t))
  /\ current_signal_distance 2 d inter t v = Ret (hypot d (inter - v * t))
  /\ hypot d (v * t) = sqrt (d * d + (v * t) * (v * t))
  /\ hypot d (inter - v * t) = sqrt (d * d + (inter - v * t) * (inter - v * t)).
Proof. repeat split. Qed.

(** At time zero the train is abreast of AP 1. *)
Lemma current_signal_distance_start (d inter v : R) :
  (0 <= d)%R -> current_signal_distance 1 d inter 0 v = Ret d.
Proof.
  intros Hd. unfold current_signal_distance. cbn [Z.eqb Pos.eqb].
  cbv zeta. rewrite Rmult_0_r. now rewrite hypot_0_r.
Qed.

(** ** The loss function *)

(** C2: on a positive distance the loss on band 2.4 is
    [-20*log10(0.12491) + 20*log10(d) + 21.984] and the loss on band 5.0 is
    [-20*log10(0.05996) + 20*log10(d) + 21.984]. *)
Theorem compute_free_space_loss_formula (d : R) :
  (0 < d)%R ->
  compute_free_space_loss d "2.4"
    = Ret (-20 * (ln 0.12491 / ln 10) + 20 * (ln d / ln 10) + 21.984)%R
  /\ compute_free_space_loss d "5.0"
    = Ret (-20 * (ln 0.05996 / ln 10) + 20 * (ln d / ln 10) + 21.984)%R.
Proof.
  intros Hd. split.
  - now rewrite compute_free_space_loss_24.
  - now rewrite compute_free_space_loss_50.
Qed.

Lemma compute_free_space_loss_formula_witness :
  compute_free_space_loss 10 "2.4"
    = Ret (-20 * (ln 0.12491 / ln 10) + 20 * (ln 10 / ln 10) + 21.984)%R
  /\ compute_free_space_loss 10 "5.0"
    = Ret (-20 * (ln 0.05996 / ln 10) + 20 * (ln 10 / ln 10) + 21.984)%R.
Proof. apply (compute_free_space_loss_formula 10). lra. Defined.

Lemma compute_free_space_loss_zero_24 :
  compute_free_space_loss 0 "2.4" = Raise math_domain_error.
Proof.
  unfold compute_free_space_loss.
  rewrite String.eqb_refl, rbind_Ret.
  rewrite (log10_pos _ wavelength_24_pos), rbind_Ret.
  now rewrite (log10_nonpos 0 (Rle_refl 0)).
Qed.

(** C3 as stated fails: on distance zero and band 2.4 the function raises
    what [math.log10] raises on zero, the domain error of the logarithm, so
    it is false that every non-positive distance gives an error other than
    that one. *)
Lemma nonpositive_distance_error_counterexample :
  compute_free_space_loss 0 "2.4" = log10 0
  /\ log10 0 = Raise math_domain_error
  /\ ~ (forall (d : R) (band : string), (d <= 0)%R ->
          exists e, compute_free_space_loss d band = Raise e
                    /\ e <> math_domain_error).
Proof.
  assert (Hlog : log10 0 = Raise math_domain_error) by (apply log10_nonpos; lra).
  split; [now rewrite Hlog, compute_free_space_loss_zero_24 |].
  split; [exact Hlog |].
  intros H. destruct (H 0%R "2.4" (Rle_refl 0)) as [e [He Hne]].
  rewrite compute_free_space_loss_zero_24 in He. congruence.
Qed.

(** C3, amended: a non-positive distance always makes the function fail with
    a [ValueError]; on a supported band it is the domain error that
    [math.log10] raises on that distance, on any other band it is the
    function's own unsupported-band error. *)
Theorem nonpositive_distance_raises (d : R) (band : string) :
  (d <= 0)%R ->
  (band = "2.4" \/ band = "5.0" ->
     compute_free_space_loss d band = Raise math_domain_error
     /\ log10 d = Raise math_domain_error)
  /\ (band <> "2.4" -> band <> "5.0" ->
     compute_free_space_loss d band = Raise (band_error band)).
Proof.
  intros Hd. split.
  - intros Hb. split; [| now apply log10_nonpos].
    unfold compute_free_space_loss.
    destruct Hb as [-> | ->].
    + rewrite String.eqb_refl, rbind_Ret.
      rewrite (log10_pos _ wavelength_24_pos), rbind_Ret.
      now rewrite (log10_nonpos d Hd).
    + replace (String.eqb "5.0" "2.4") with false by reflexivity.
      rewrite String.eqb_refl, rbind_Ret.
      rewrite (log10_pos _ wavelength_50_pos), rbind_Ret.
      now rewrite (log10_nonpos d Hd).
  - apply compute_free_space_loss_bad_band.
Qed.

Lemma nonpositive_distance_raises_witness :
  compute_free_space_loss (-1) "5.0" = Raise math_domain_error
  /\ compute_free_space_loss 0 "3.0" = Raise (band_error "3.0").
Proof.
  split.
  - apply (nonpositive_distance_raises (-1) "5.0"); [lra | now right].
  - apply (nonpositive_distance_raises 0 "3.0"); [lra | discriminate | discriminate].
Defined.

(** C4: an AP number other than 1 and 2 makes the distance function raise
    its [ValueError], and a band other than "2.4" and "5.0" makes the loss
    function raise its [ValueError], whatever the other arguments. *)
Theorem invalid_arguments_raise :
  (forall (AP_number : Z) (d inter t v : R),
     AP_number <> 1 -> AP_number <> 2 ->
     current_signal_distance AP_number d inter t v = Raise (ap_number_error AP_number))
  /\ (forall (distance : R) (band : string),
     band <> "2.4" -> band <> "5.0" ->
     compute_free_space_loss distance band = Raise (band_error band)).
Proof.
  split.
  - intros n d inter t v H1 H2. unfold current_signal_distance.
    destruct (Z.eqb_spec n 1); [contradiction |].
    destruct (Z.eqb_spec n 2); [contradiction |].
    reflexivity.
  - intros. now apply compute_free_space_loss_bad_band.
Qed.

Lemma invalid_arguments_raise_witness :
  current_signal_distance 3 10 100 0 92
    = Raise (ValueError "3 must be either 1 or 2.")
  /\ current_signal_distance (-1) 10 100 0 92
    = Raise (ValueError "-1 must be either 1 or 2.")
  /\ compute_free_space_loss 10 "3.0"
    = Raise (ValueError "3.0 is an unsupported frequency or is incorrectly formatted.")
  /\ compute_free_space_loss 10 ""
    = Raise (ValueError " is an unsupported frequency or is incorrectly formatted.").
Proof.
  split; [| split; [| split]].
  - apply (proj1 invalid_arguments_raise 3 10%R 100%R 0%R 92%R); lia.
  - apply (proj1 invalid_arguments_raise (-1) 10%R 100%R 0%R 92%R); lia.
  - apply (proj2 invalid_arguments_raise 10%R "3.0"); discriminate.
  - apply (proj2 invalid_arguments_raise 10%R ""); discriminate.
Defined.


(** C6: at every positive distance the loss on band 5.0 is strictly greater
    than the loss on band 2.4. *)
Theorem compute_free_space_loss_band_order (d : R) :
  (0 < d)%R ->
  exists l24 l50,
    compute_free_space_loss d "2.4" = Ret l24
    /\ compute_free_space_loss d "5.0" = Ret l50
    /\ (l24 < l50)%R.
Proof.
  intros Hd. exists (loss_formula 0.12491 d), (loss_formula 0.05996 d).
  repeat split.
  - now apply compute_free_space_loss_24.
  - now apply compute_free_space_loss_50.
  - apply loss_formula_band_gap.
Qed.

Lemma compute_free_space_loss_band_order_witness :
  exists l24 l50,
    compute_free_space_loss 10 "2.4" = Ret l24
    /\ compute_free_space_loss 10 "5.0" = Ret l50
    /\ (l24 < l50)%R.
Proof. apply (compute_free_space_loss_band_order 10). lra. Defined.

(** ** Fixed-point formatting *)

Section Formatting.

Lemma all_digits_app (a b : string) :
  all_digits (a ++ b) = all_digits a && all_digits b.
Proof.
  induction a as [| c a IH]; [reflexivity |].
  change (String c a ++ b) with (String c (a ++ b)).
  cbn [all_digits]. rewrite IH. now rewrite andb_assoc.
Qed.

Lemma no_newline_app (a b : string) :
  no_newline (a ++ b) = no_newline a && no_newline b.
Proof.
  induction a as [| c a IH]; [reflexivity |].
  change (String c a ++ b) with (String c (a ++ b)).
  cbn [no_newline]. rewrite IH. now rewrite andb_assoc.
Qed.

Lemma length_app_string (a b : string) :
  String.length (a ++ b) = (String.length a + String.length b)%nat.
Proof.
  induction a as [| c a IH]; [reflexivity |].
  change (String c a ++ b) with (String c (a ++ b)).
  cbn [String.length Nat.add]. now rewrite IH.
Qed.

Lemma append_empty_r (a : string) : a ++ "" = a.
Proof.
  induction a as [| c a IH]; [reflexivity |].
  change (String c a ++ "") with (String c (a ++ "")). now rewrite IH.
Qed.

Lemma is_digit_not_point (c : ascii) : is_digit c = true -> Ascii.eqb c "." = false.
Proof.
  intros Hc. destruct (Ascii.eqb_spec c "."); [subst; discriminate | reflexivity].
Qed.

Lemma is_digit_not_minus (c : ascii) : is_digit c = true -> Ascii.eqb c "-" = false.
Proof.
  intros Hc. destruct (Ascii.eqb_spec c "-"); [subst; discriminate | reflexivity].
Qed.

Lemma is_digit_not_newline (c : ascii) :
  is_digit c = true -> Ascii.eqb c newline = false.
Proof.
  intros Hc. destruct (Ascii.eqb_spec c newline); [subst; discriminate | reflexivity].
Qed.

Lemma all_digits_no_newline (s : string) : all_digits s = true -> no_newline s = true.
Proof.
  induction s as [| c s IH]; [reflexivity |].
  cbn [all_digits no_newline]. intros [Hc Hs]%andb_prop.
  now rewrite (is_digit_not_newline c Hc), IH.
Qed.

Lemma all_digits_uint (d : uint) : all_digits (NilEmpty.string_of_uint d) = true.
Proof. induction d; cbn [NilEmpty.string_of_uint all_digits]; auto. Qed.

Lemma all_digits_uint_zero (d : uint) : all_digits (NilZero.string_of_uint d) = true.
Proof. destruct d; try reflexivity; apply (all_digits_uint (_ d)). Qed.

Lemma uint_zero_nonempty (d : uint) : NilZero.string_of_uint d <> "".
Proof. destruct d; discriminate. Qed.

(** [str] of a natural number is a non-empty run of digits. *)
Lemma str_int_nonneg (n : Z) :
  0 <= n -> all_digits (str_int n) = true /\ str_int n <> "".
Proof.
  intros Hn. unfold str_int.
  destruct n as [| q | q]; [| | lia]; cbn [Z.to_int NilZero.string_of_int];
    split; auto using all_digits_uint_zero, uint_zero_nonempty.
Qed.

Lemma is_digit_digit_char (k : Z) : 0 <= k < 10 -> is_digit (digit_char k) = true.
Proof.
  intros Hk.
  assert (E : k = 0 \/ k = 1 \/ k = 2 \/ k = 3 \/ k = 4 \/ k = 5 \/ k = 6
              \/ k = 7 \/ k = 8 \/ k = 9) by lia.
  repeat (destruct E as [-> | E]; [reflexivity |]). now subst.
Qed.

Lemma all_digits_frac_digits (p : nat) (m : Z) : all_digits (frac_digits p m) = true.
Proof.
  revert m. induction p as [| p IH]; intros m; [reflexivity |].
  cbn [frac_digits]. rewrite all_digits_app, IH. cbn [all_digits andb].
  rewrite is_digit_digit_char; [reflexivity |].
  apply Z.mod_pos_bound. lia.
Qed.

Lemma length_frac_digits (p : nat) (m : Z) : String.length (frac_digits p m) = p.
Proof.
  revert m. induction p as [| p IH]; intros m; [reflexivity |].
  cbn [frac_digits]. rewrite length_app_string, IH. cbn. lia.
Qed.

Lemma Int_part_nonneg (x : R) : (0 <= x)%R -> 0 <= Int_part x.
Proof.
  intros Hx. destruct (base_Int_part x) as [_ Hlow].
  assert (H : (IZR (-1) < IZR (Int_part x))%R) by lra.
  apply lt_IZR in H. lia.
Qed.

Lemma round_half_even_nonneg (x : R) : (0 <= x)%R -> 0 <= round_half_even x.
Proof.
  intros Hx. pose proof (Int_part_nonneg x Hx). unfold round_half_even.
  repeat match goal with |- context [if ?b then _ else _] => destruct b end; lia.
Qed.

Lemma scaled_nonneg (p : nat) (x : R) : (0 <= Rabs x * 10 ^ p)%R.
Proof.
  apply Rmult_le_pos; [apply Rabs_pos | apply pow_le; lra].
Qed.

Lemma split_point_digits (ip : string) :
  all_digits ip = true -> split_point ip = (ip, None).
Proof.
  induction ip as [| c ip IH]; [reflexivity |].
  cbn [all_digits split_point]. intros [Hc Hs]%andb_prop.
  now rewrite (is_digit_not_point c Hc), (IH Hs).
Qed.

Lemma split_point_digits_point (ip fp : string) :
  all_digits ip = true -> split_point (ip ++ "." ++ fp) = (ip, Some fp).
Proof.
  induction ip as [| c ip IH]; [reflexivity |].
  cbn [all_digits]. intros [Hc Hs]%andb_prop.
  change (String c ip ++ "." ++ fp) with (String c (ip ++ "." ++ fp)).
  cbn [split_point].
  now rewrite (is_digit_not_point c Hc), (IH Hs).
Qed.

Lemma integer_digits (p : nat) (x : R) :
  let ip := str_int (round_half_even (Rabs x * 10 ^ p)%R / 10 ^ Z.of_nat p) in
  all_digits ip = true /\ ip <> "".
Proof.
  apply str_int_nonneg, Z.div_pos; [| lia].
  apply round_half_even_nonneg, scaled_nonneg.
Qed.

Lemma unsigned_part_head (p : nat) (x : R) :
  exists c r, unsigned_part p x = String c r /\ is_digit c = true.
Proof.
  destruct (integer_digits p x) as [Hd Hne]. unfold unsigned_part.
  cbv zeta in *.
  destruct (str_int _) as [| c r]; [contradiction |].
  exists c. eexists. split; [reflexivity |].
  cbn [all_digits] in Hd. now apply andb_prop in Hd.
Qed.

Lemma is_fixed_point_unsigned (p : nat) (x : R) :
  match split_point (unsigned_part p x) with
  | (ip, None) => (p =? 0)%nat && negb (String.eqb ip "") && all_digits ip
  | (ip, Some fp) =>
      negb (p =? 0)%nat && negb (String.eqb ip "") && all_digits ip
      && all_digits fp && (String.length fp =? p)%nat
  end = true.
Proof.
  destruct (integer_digits p x) as [Hd Hne]. unfold unsigned_part.
  cbv zeta in *.
  set (ip := str_int _) in *.
  assert (Hnb : negb (String.eqb ip "") = true).
  { destruct (String.eqb_spec ip ""); [contradiction | reflexivity]. }
  destruct p as [| p'].
  - rewrite (append_empty_r ip), (split_point_digits ip Hd), Hnb, Hd. reflexivity.
  - rewrite (split_point_digits_point ip _ Hd), Hnb, Hd.
    rewrite all_digits_frac_digits, length_frac_digits, Nat.eqb_refl.
    reflexivity.
Qed.

(** Every formatted number is a fixed-point numeral of the asked precision. *)
Lemma is_fixed_point_format_fixed (p : nat) (x : R) :
  is_fixed_point p (format_fixed p x) = true.
Proof.
  unfold format_fixed, is_fixed_point.
  destruct (Rlt_dec x 0).
  - change ("-" ++ unsigned_part p x) with (String "-" (unsigned_part p x)).
    cbv iota. rewrite Ascii.eqb_refl. apply is_fixed_point_unsigned.
  - change ("" ++ unsigned_part p x) with (unsigned_part p x).
    destruct (unsigned_part_head p x) as (c & r & E & Hc).
    pose proof (is_fixed_point_unsigned p x) as H. rewrite E in *.
    now rewrite (is_digit_not_minus c Hc).
Qed.

Lemma no_newline_format_fixed (p : nat) (x : R) :
  no_newline (format_fixed p x) = true.
Proof.
  unfold format_fixed, unsigned_part. cbv zeta.
  destruct (integer_digits p x) as [Hd _]. cbv zeta in Hd.
  rewrite !no_newline_app, (all_digits_no_newline _ Hd).
  assert (Hs : no_newline (if Rlt_dec x 0 then "-" else "") = true)
    by (destruct (Rlt_dec x 0); reflexivity).
  rewrite Hs. destruct p as [| p']; [reflexivity |].
  rewrite no_newline_app, (all_digits_no_newline _ (all_digits_frac_digits _ _)).
  reflexivity.
Qed.

End Formatting.

(** ** The value of a formatted number *)

Lemma digits_to_Z_app (a b : string) :
  forall acc, digits_to_Z (a ++ b) acc = digits_to_Z b (digits_to_Z a acc).
Proof.
  induction a as [| c a IH]; intros acc; [reflexivity |].
  change (String c a ++ b) with (String c (a ++ b)).
  cbn [digits_to_Z]. destruct (is_digit c); apply IH.
Qed.

Lemma digits_to_Z_uint_acc (d : uint) :
  forall acc : positive,
    digits_to_Z (NilEmpty.string_of_uint d) (Zpos acc) = Zpos (Pos.of_uint_acc d acc).
Proof.
  induction d; intros acc; cbn [NilEmpty.string_of_uint Pos.of_uint_acc];
    [reflexivity | ..];
    cbn [digits_to_Z];
    match goal with
    | |- context [is_digit ?c] =>
        change (is_digit c) with true; cbv iota;
        let v := eval vm_compute in (Z.of_nat (nat_of_ascii c) - 48) in
        change (Z.of_nat (nat_of_ascii c) - 48) with v
    end;
    match goal with
    | |- digits_to_Z _ ?a = Zpos (Pos.of_uint_acc _ ?b) =>
        replace a with (Zpos b) by lia
    end; apply IHd.
Qed.

Lemma digits_to_Z_uint (d : uint) :
  digits_to_Z (NilEmpty.string_of_uint d) 0 = Z.of_N (Pos.of_uint d).
Proof.
  induction d; cbn [NilEmpty.string_of_uint Pos.of_uint]; [reflexivity | ..];
    cbn [digits_to_Z];
    match goal with
    | |- context [is_digit ?c] =>
        change (is_digit c) with true; cbv iota;
        let v := eval vm_compute in (Z.of_nat (nat_of_ascii c) - 48) in
        change (Z.of_nat (nat_of_ascii c) - 48) with v
    end;
    [exact IHd | ..]; cbn [Z.of_N];
    match goal with
    | |- digits_to_Z _ ?a = Zpos (Pos.of_uint_acc _ ?b) =>
        change a with (Zpos b)
    end; apply digits_to_Z_uint_acc.
Qed.

(** Reading back what [str] printed for a natural number gives the number. *)
Lemma digits_to_Z_str_int (n : Z) : 0 <= n -> digits_to_Z (str_int n) 0 = n.
Proof.
  intros Hn. unfold str_int. destruct n as [| q | q]; [reflexivity | | lia].
  cbn [Z.to_int NilZero.string_of_int]. unfold NilZero.string_of_uint.
  pose proof (Unsigned.to_uint_nonnil q) as Hnil.
  destruct (Pos.to_uint q) eqn:E; [contradiction | ..];
    rewrite <- E, digits_to_Z_uint, Unsigned.of_to; reflexivity.
Qed.

Lemma digit_char_value (k : Z) :
  0 <= k < 10 -> Z.of_nat (nat_of_ascii (digit_char k)) - 48 = k.
Proof.
  intros Hk.
  assert (E : k = 0 \/ k = 1 \/ k = 2 \/ k = 3 \/ k = 4 \/ k = 5 \/ k = 6
              \/ k = 7 \/ k = 8 \/ k = 9) by lia.
  repeat (destruct E as [-> | E]; [reflexivity |]). now subst.
Qed.

Lemma digits_to_Z_frac_digits (p : nat) :
  forall m acc,
    digits_to_Z (frac_digits p m) acc = acc * 10 ^ Z.of_nat p + m mod 10 ^ Z.of_nat p.
Proof.
  induction p as [| p IH]; intros m acc.
  - cbn [frac_digits digits_to_Z]. change (10 ^ Z.of_nat 0) with 1.
    rewrite Z.mod_1_r. lia.
  - cbn [frac_digits]. rewrite digits_to_Z_app, IH. cbn [digits_to_Z].
    assert (Hk : 0 <= m mod 10 < 10) by (apply Z.mod_pos_bound; lia).
    rewrite (is_digit_digit_char _ Hk), (digit_char_value _ Hk).
    rewrite Nat2Z.inj_succ, Z.pow_succ_r by lia.
    assert (Hpow : 0 < 10 ^ Z.of_nat p) by (apply Z.pow_pos_nonneg; lia).
    rewrite (Z.rem_mul_r m 10 (10 ^ Z.of_nat p)) by lia.
    lia.
Qed.

Lemma digits_to_Z_unsigned_part (p : nat) (x : R) :
  digits_to_Z (unsigned_part p x) 0 = round_half_even (Rabs x * 10 ^ p)%R.
Proof.
  unfold unsigned_part. cbv zeta.
  set (m := round_half_even (Rabs x * 10 ^ p)%R).
  assert (Hm : 0 <= m) by apply round_half_even_nonneg, scaled_nonneg.
  assert (Hpow : 0 < 10 ^ Z.of_nat p) by (apply Z.pow_pos_nonneg; lia).
  assert (Hq : 0 <= m / 10 ^ Z.of_nat p) by (apply Z.div_pos; lia).
  rewrite digits_to_Z_app, (digits_to_Z_str_int _ Hq).
  destruct p as [| p'].
  - cbn [digits_to_Z]. change (10 ^ Z.of_nat 0) with 1. apply Z.div_1_r.
  - rewrite digits_to_Z_app. cbn [digits_to_Z].
    change (is_digit ".") with false. cbv iota.
    rewrite digits_to_Z_frac_digits.
    rewrite (Z.div_mod m (10 ^ Z.of_nat (S p'))) at 3 by lia. lia.
Qed.

Lemma round_half_even_error (y : R) : (Rabs (IZR (round_half_even y) - y) <= 1 / 2)%R.
Proof.
  unfold round_half_even. cbv zeta.
  pose proof (base_fp y) as [Hlow Hhigh]. unfold frac_part in *.
  repeat match goal with |- context [if ?b then _ else _] => destruct b end;
    try rewrite plus_IZR; apply Rabs_le; lra.
Qed.

(** The numeral printed for [x] at precision [p] denotes [x] to within half
    a unit of its last digit. *)
Lemma format_fixed_value (p : nat) (x : R) :
  (Rabs (IZR (numeral_scaled (format_fixed p x)) - x * 10 ^ p) <= 1 / 2)%R.
Proof.
  pose proof (round_half_even_error (Rabs x * 10 ^ p)) as Herr.
  unfold format_fixed. destruct (Rlt_dec x 0) as [Hneg | Hpos].
  - change ("-" ++ unsigned_part p x) with (String "-" (unsigned_part p x)).
    unfold numeral_scaled. rewrite Ascii.eqb_refl, digits_to_Z_unsigned_part.
    rewrite opp_IZR. rewrite (Rabs_left x Hneg) in *.
    replace (- IZR (round_half_even (- x * 10 ^ p)) - x * 10 ^ p)%R
      with (- (IZR (round_half_even (- x * 10 ^ p)) - - x * 10 ^ p))%R by ring.
    now rewrite Rabs_Ropp.
  - change ("" ++ unsigned_part p x) with (unsigned_part p x).
    destruct (unsigned_part_head p x) as (c & r & E & Hc).
    pose proof (digits_to_Z_unsigned_part p x) as Hval.
    unfold numeral_scaled. rewrite E in *. rewrite (is_digit_not_minus c Hc), Hval.
    rewrite (Rabs_pos_eq x) in * by lra. exact Herr.
Qed.

(** ** The sampling loop *)

Ltac solve_precision :=
  unfold default_mantissa_length, max_precision;
  change (2 ^ 31 - 1) with 2147483647; lia.

Lemma format_string_format_ok (mantissa_length : Z) (x : R) :
  0 <= mantissa_length <= max_precision ->
  format_string_format mantissa_length x
  = Ret (format_fixed (Z.to_nat mantissa_length) x).
Proof.
  intros Hm. unfold format_string_format.
  destruct (Z.ltb_spec mantissa_length 0); [lia |].
  destruct (Z.ltb_spec (2 ^ 63 - 1) mantissa_length);
    [revert Hm; unfold max_precision; lia |].
  destruct (Z.ltb_spec max_precision mantissa_length); [lia | reflexivity].
Qed.

Lemma format_string_format_Ret (mantissa_length : Z) (x : R) (s : string) :
  format_string_format mantissa_length x = Ret s ->
  0 <= mantissa_length <= max_precision
  /\ s = format_fixed (Z.to_nat mantissa_length) x.
Proof.
  unfold format_string_format.
  destruct (Z.ltb_spec mantissa_length 0); [discriminate |].
  destruct (Z.ltb_spec (2 ^ 63 - 1) mantissa_length); [discriminate |].
  destruct (Z.ltb_spec max_precision mantissa_length); [discriminate |].
  intros [= <-]. repeat split; lia.
Qed.

Section SamplingFacts.
Variables ap_distance train_distance train_velocity granularity : R.
Variable mantissa_length : Z.

Local Abbreviation loop :=
  (sample_loop ap_distance train_distance train_velocity granularity mantissa_length).
Local Abbreviation entry :=
  (sample_entry ap_distance train_distance train_velocity granularity mantissa_length).

Lemma sample_loop_cons (t : Z) (ts : list Z) (a1 a2 : list string) (s1 s2 : string) :
  entry 1 t = Ret s1 -> entry 2 t = Ret s2 ->
  loop (t :: ts) a1 a2 = loop ts (a1 ++ [s1])%list (a2 ++ [s2])%list.
Proof.
  unfold sample_entry. cbn [sample_loop]. cbv zeta.
  destruct (current_signal_distance 1 _ _ _ _) as [d1 |]; cbn [rbind];
    [| intros; discriminate].
  destruct (compute_free_space_loss d1 _) as [x1 |]; cbn [rbind];
    [| intros; discriminate].
  intros ->. cbn [rbind].
  destruct (current_signal_distance 2 _ _ _ _) as [d2 |]; cbn [rbind];
    [| intros; discriminate].
  destruct (compute_free_space_loss d2 _) as [x2 |]; cbn [rbind];
    [| intros; discriminate].
  intros ->. reflexivity.
Qed.

(** A pass that completes has computed both entries. *)
Lemma sample_loop_cons_Ret (t : Z) (ts : list Z) (a1 a2 l1 l2 : list string) :
  loop (t :: ts) a1 a2 = Ret (l1, l2) ->
  exists s1 s2, entry 1 t = Ret s1 /\ entry 2 t = Ret s2
                /\ loop ts (a1 ++ [s1])%list (a2 ++ [s2])%list = Ret (l1, l2).
Proof.
  unfold sample_entry. cbn [sample_loop]. cbv zeta.
  destruct (current_signal_distance 1 _ _ _ _) as [d1 |]; cbn [rbind];
    [| intros; discriminate].
  destruct (compute_free_space_loss d1 _) as [x1 |]; cbn [rbind];
    [| intros; discriminate].
  destruct (format_string_format _ x1) as [s1 |]; cbn [rbind];
    [| intros; discriminate].
  destruct (current_signal_distance 2 _ _ _ _) as [d2 |]; cbn [rbind];
    [| intros; discriminate].
  destruct (compute_free_space_loss d2 _) as [x2 |]; cbn [rbind];
    [| intros; discriminate].
  destruct (format_string_format _ x2) as [s2 |]; cbn [rbind];
    [| intros; discriminate].
  intros H. exists s1, s2. auto.
Qed.

(** The loop appends, in the order of [ts], one entry per sample to each list. *)
Lemma sample_loop_Ret (ts : list Z) :
  forall a1 a2 l1 l2, loop ts a1 a2 = Ret (l1, l2) ->
  exists e1 e2,
    l1 = (a1 ++ e1)%list /\ l2 = (a2 ++ e2)%list
    /\ Forall2 (fun t s => entry 1 t = Ret s) ts e1
    /\ Forall2 (fun t s => entry 2 t = Ret s) ts e2.
Proof.
  induction ts as [| t ts IH]; intros a1 a2 l1 l2 H.
  - injection H as <- <-. exists [], []. rewrite !app_nil_r.
    repeat split; constructor.
  - apply sample_loop_cons_Ret in H as (s1 & s2 & H1 & H2 & H).
    apply IH in H as (e1 & e2 & -> & -> & F1 & F2).
    exists (s1 :: e1), (s2 :: e2). rewrite <- !app_assoc.
    repeat split; try constructor; assumption.
Qed.

Lemma sample_loop_complete (ts : list Z) :
  forall a1 a2 e1 e2,
    Forall2 (fun t s => entry 1 t = Ret s) ts e1 ->
    Forall2 (fun t s => entry 2 t = Ret s) ts e2 ->
    loop ts a1 a2 = Ret ((a1 ++ e1)%list, (a2 ++ e2)%list).
Proof.
  induction ts as [| t ts IH]; intros a1 a2 e1 e2 F1 F2.
  - inversion F1; inversion F2; subst. now rewrite !app_nil_r.
  - inversion F1 as [| ? s1 ? e1' Hs1 F1']; subst.
    inversion F2 as [| ? s2 ? e2' Hs2 F2']; subst.
    rewrite (sample_loop_cons t ts a1 a2 s1 s2 Hs1 Hs2).
    rewrite (IH _ _ e1' e2' F1' F2'). now rewrite <- !app_assoc.
Qed.

(** An entry that is computed is the formatted loss, on band 2.4, of a
    positive distance, and the precision is not negative. *)
Lemma sample_entry_Ret (AP_number t : Z) (s : string) :
  entry AP_number t = Ret s ->
  exists d,
    current_signal_distance AP_number train_distance ap_distance
      (IZR t * granularity)%R train_velocity = Ret d
    /\ (0 < d)%R
    /\ compute_free_space_loss d "2.4" = Ret (loss_formula 0.12491 d)
    /\ 0 <= mantissa_length
    /\ s = format_fixed (Z.to_nat mantissa_length) (loss_formula 0.12491 d).
Proof.
  unfold sample_entry.
  destruct (current_signal_distance AP_number _ _ _ _) as [d |]; [| discriminate].
  rewrite rbind_Ret. intros H. exists d.
  destruct (Rlt_dec 0 d) as [Hd | Hd].
  - unfold default_band in H.
    rewrite (compute_free_space_loss_24 d Hd), rbind_Ret in H.
    apply format_string_format_Ret in H as [[Hm _] ->].
    auto using compute_free_space_loss_24.
  - exfalso. unfold default_band, compute_free_space_loss in H.
    rewrite String.eqb_refl, rbind_Ret in H.
    rewrite (log10_pos _ wavelength_24_pos), rbind_Ret in H.
    rewrite log10_nonpos in H by lra. discriminate.
Qed.

(** On a train that is off the line of the APs, every entry is computed. *)
Lemma sample_entry_valid (AP_number t : Z) :
  AP_number = 1 \/ AP_number = 2 ->
  train_distance <> 0%R -> 0 <= mantissa_length <= max_precision ->
  exists s, entry AP_number t = Ret s.
Proof.
  intros Hap Hd Hm. unfold sample_entry, default_band.
  assert (E : exists d, current_signal_distance AP_number train_distance ap_distance
                 (IZR t * granularity)%R train_velocity = Ret d /\ (0 < d)%R).
  { destruct Hap as [-> | ->]; eexists; (split; [reflexivity |]);
      now apply hypot_pos. }
  destruct E as (d & -> & Hpos). rewrite rbind_Ret.
  rewrite (compute_free_space_loss_24 d Hpos), rbind_Ret.
  rewrite (format_string_format_ok _ _ Hm). eauto.
Qed.

Lemma sample_entries_valid (AP_number : Z) (ts : list Z) :
  AP_number = 1 \/ AP_number = 2 ->
  train_distance <> 0%R -> 0 <= mantissa_length <= max_precision ->
  exists e, Forall2 (fun t s => entry AP_number t = Ret s) ts e.
Proof.
  intros Hap Hd Hm. induction ts as [| t ts [e IH]].
  - exists []. constructor.
  - destruct (sample_entry_valid AP_number t Hap Hd Hm) as [s Hs].
    exists (s :: e). now constructor.
Qed.

End SamplingFacts.

Lemma sample_losses_Ret (ap_distance train_distance train_velocity granularity : R)
    (mantissa_length sample_count : Z) (l1 l2 : list string) :
  sample_losses ap_distance train_distance train_velocity granularity
    mantissa_length sample_count = Ret (l1, l2) ->
  Forall2 (fun t s => sample_entry ap_distance train_distance train_velocity
                        granularity mantissa_length 1 t = Ret s)
          (seqZ 0 sample_count) l1
  /\ Forall2 (fun t s => sample_entry ap_distance train_distance train_velocity
                           granularity mantissa_length 2 t = Ret s)
             (seqZ 0 sample_count) l2.
Proof.
  intros H. apply sample_loop_Ret in H as (e1 & e2 & -> & -> & F1 & F2).
  now split.
Qed.

Lemma sample_losses_valid (ap_distance train_distance train_velocity granularity : R)
    (mantissa_length sample_count : Z) :
  train_distance <> 0%R -> 0 <= mantissa_length <= max_precision ->
  exists l1 l2,
    sample_losses ap_distance train_distance train_velocity granularity
      mantissa_length sample_count = Ret (l1, l2).
Proof.
  intros Hd Hm.
  destruct (sample_entries_valid ap_distance train_distance train_velocity granularity
              mantissa_length 1 (seqZ 0 sample_count)) as [e1 F1]; auto.
  destruct (sample_entries_valid ap_distance train_distance train_velocity granularity
              mantissa_length 2 (seqZ 0 sample_count)) as [e2 F2]; auto.
  exists e1, e2. unfold sample_losses.
  now rewrite (sample_loop_complete _ _ _ _ _ _ [] [] e1 e2 F1 F2).
Qed.

Lemma sample_losses_length (ap_distance train_distance train_velocity granularity : R)
    (mantissa_length sample_count : Z) (l1 l2 : list string) :
  sample_losses ap_distance train_distance train_velocity granularity
    mantissa_length sample_count = Ret (l1, l2) ->
  length l1 = Z.to_nat sample_count /\ length l2 = Z.to_nat sample_count.
Proof.
  intros [F1 F2]%sample_losses_Ret. split.
  - rewrite <- (Forall2_length _ _ _ F1). apply length_seqZ.
  - rewrite <- (Forall2_length _ _ _ F2). apply length_seqZ.
Qed.

(** The condition on the train's distance is needed: with the train on the
    line of the APs the first sample is at distance zero from AP 1 and the
    logarithm raises. *)
Lemma sample_losses_on_the_line (ap_distance train_velocity granularity : R)
    (mantissa_length sample_count : Z) :
  0 < sample_count ->
  sample_losses ap_distance 0 train_velocity granularity mantissa_length sample_count
  = Raise math_domain_error.
Proof.
  intros Hn. unfold sample_losses. rewrite seqZ_cons by lia.
  cbn [sample_loop]. cbv zeta.
  change (current_signal_distance 1 0 ap_distance (0 * granularity) train_velocity)
    with (Ret (hypot 0 (train_velocity * (0 * granularity)))).
  rewrite rbind_Ret.
  replace (hypot 0 (train_velocity * (0 * granularity))) with 0%R.
  - unfold default_band. now rewrite compute_free_space_loss_zero_24.
  - unfold hypot.
    replace (0 * 0 + train_velocity * (0 * granularity)
                     * (train_velocity * (0 * granularity)))%R with 0%R by ring.
    symmetry. apply sqrt_0.
Qed.

Lemma seqZ_lookup_index (sample_count i : Z) :
  0 <= i < sample_count -> seqZ 0 sample_count !! Z.to_nat i = Some i.
Proof.
  intros Hi. rewrite lookup_seqZ_lt by lia. f_equal. lia.
Qed.

Lemma magnitude_bound_large : (1000000 <= magnitude_bound)%R.
Proof.
  unfold magnitude_bound. apply IZR_le. apply Z.leb_le. vm_compute. reflexivity.
Qed.

Lemma in_range_small (x : R) : (Rabs x <= 1000000)%R -> in_range x.
Proof. intros H. unfold in_range. pose proof magnitude_bound_large. lra. Qed.

(** The suggested run, and any shorter one with the same arguments, is
    finite. *)
Lemma finite_run_suggested (sample_count : Z) :
  sample_count <= 5000 -> finite_run 100 10 92 0.001 sample_count.
Proof.
  intros Hn. unfold finite_run.
  repeat (split; [apply in_range_small; rewrite Rabs_pos_eq; lra |]).
  split; [lia |].
  intros i [Hlow Hhigh].
  assert (0 <= IZR i <= 5000)%R
    by (split; [apply (IZR_le 0) | apply (IZR_le i 5000)]; lia).
  split; apply in_range_small; rewrite Rabs_pos_eq; nra.
Qed.

Lemma valid_run_suggested (sample_count : Z) :
  sample_count <= 5000 -> valid_run 100 10 92 0.001 sample_count 3.
Proof.
  intros Hn. unfold valid_run.
  split; [now apply finite_run_suggested |]. split; [lra | solve_precision].
Qed.

(** C7: on a valid run (finite numbers, the train off the line of the APs,
    a precision [format] accepts) the loop returns two lists with one entry
    per sample index [0 .. sample_count - 1]; the entry at index [i] is the
    loss of that AP at time [i * granularity], printed fixed-point with
    exactly [mantissa_length] digits after the point, and the printed
    numeral is the loss to within half a unit of its last digit. *)
Theorem sample_losses_sequences
    (ap_distance train_distance train_velocity granularity : R)
    (sample_count mantissa_length : Z) :
  valid_run ap_distance train_distance train_velocity granularity
    sample_count mantissa_length ->
  exists l1 l2,
    sample_losses ap_distance train_distance train_velocity granularity
      mantissa_length sample_count = Ret (l1, l2)
    /\ length l1 = Z.to_nat sample_count
    /\ length l2 = Z.to_nat sample_count
    /\ forall i : Z, 0 <= i < sample_count ->
         holds_loss_at ap_distance train_distance train_velocity granularity
           mantissa_length l1 1 default_band i
         /\ holds_loss_at ap_distance train_distance train_velocity granularity
              mantissa_length l2 2 default_band i.
Proof.
  intros (_ & Hd & Hm).
  destruct (sample_losses_valid ap_distance train_distance train_velocity granularity
              mantissa_length sample_count Hd Hm) as (l1 & l2 & Hrun).
  exists l1, l2. split; [exact Hrun |].
  destruct (sample_losses_length _ _ _ _ _ _ _ _ Hrun) as [Hl1 Hl2].
  apply sample_losses_Ret in Hrun as [F1 F2].
  split; [exact Hl1 | split; [exact Hl2 |]].
  intros i Hi. pose proof (seqZ_lookup_index sample_count i Hi) as Hti.
  split.
  - destruct (Forall2_lookup_l _ _ _ _ _ F1 Hti) as (s & Hs & He).
    apply sample_entry_Ret in He as (d & Hdist & _ & Hloss & _ & ->).
    exists d, (loss_formula 0.12491 d). split; [exact Hdist |].
    split; [exact Hloss |]. eexists. split; [exact Hs |].
    auto using is_fixed_point_format_fixed, format_fixed_value.
  - destruct (Forall2_lookup_l _ _ _ _ _ F2 Hti) as (s & Hs & He).
    apply sample_entry_Ret in He as (d & Hdist & _ & Hloss & _ & ->).
    exists d, (loss_formula 0.12491 d). split; [exact Hdist |].
    split; [exact Hloss |]. eexists. split; [exact Hs |].
    auto using is_fixed_point_format_fixed, format_fixed_value.
Qed.

Lemma sample_losses_sequences_witness :
  exists l1 l2,
    sample_losses 100 10 92 0.001 3 5000 = Ret (l1, l2)
    /\ length l1 = Z.to_nat 5000
    /\ length l2 = Z.to_nat 5000
    /\ forall i : Z, 0 <= i < 5000 ->
         holds_loss_at 100 10 92 0.001 3 l1 1 default_band i
         /\ holds_loss_at 100 10 92 0.001 3 l2 2 default_band i.
Proof.
  apply (sample_losses_sequences 100 10 92 0.001 5000 3).
  apply valid_run_suggested. lia.
Defined.

(** C10: whenever the loop returns, every entry of both lists is the
    printed loss on the 2.4 GHz wavelength (0.12491 m) of the distance at
    that sample, a value strictly below the loss of band 5.0 at that
    distance. *)
Theorem sample_losses_band_24
    (ap_distance train_distance train_velocity granularity : R)
    (sample_count mantissa_length : Z) (l1 l2 : list string) :
  sample_losses ap_distance train_distance train_velocity granularity
    mantissa_length sample_count = Ret (l1, l2) ->
  forall (i : nat) (s : string),
    (l1 !! i = Some s ->
       is_loss_24_at ap_distance train_distance train_velocity granularity
         mantissa_length 1 i s)
    /\ (l2 !! i = Some s ->
       is_loss_24_at ap_distance train_distance train_velocity granularity
         mantissa_length 2 i s).
Proof.
  intros Hrun i s. apply sample_losses_Ret in Hrun as [F1 F2].
  assert (Hentry : forall AP_number,
    sample_entry ap_distance train_distance train_velocity granularity
      mantissa_length AP_number (Z.of_nat i) = Ret s ->
    is_loss_24_at ap_distance train_distance train_velocity granularity
      mantissa_length AP_number i s).
  { intros k He. apply sample_entry_Ret in He as (d & Hdist & Hpos & Hloss & _ & ->).
    exists d. repeat split; auto.
    exists (loss_formula 0.05996 d). split.
    - now apply compute_free_space_loss_50.
    - apply loss_formula_band_gap. }
  split; intros Hs.
  - destruct (Forall2_lookup_r _ _ _ _ _ F1 Hs) as (t & Ht & He).
    apply lookup_seqZ in Ht as [-> _]. now apply Hentry.
  - destruct (Forall2_lookup_r _ _ _ _ _ F2 Hs) as (t & Ht & He).
    apply lookup_seqZ in Ht as [-> _]. now apply Hentry.
Qed.

Lemma sample_entry_AP1 (ap_distance train_distance train_velocity granularity : R)
    (mantissa_length t : Z) :
  train_distance <> 0%R -> 0 <= mantissa_length <= max_precision ->
  sample_entry ap_distance train_distance train_velocity granularity mantissa_length 1 t
  = Ret (format_fixed (Z.to_nat mantissa_length)
           (loss_formula 0.12491
              (hypot train_distance (train_velocity * (IZR t * granularity))))).
Proof.
  intros Hd Hm. unfold sample_entry, default_band.
  change (current_signal_distance 1 train_distance ap_distance
            (IZR t * granularity) train_velocity)
    with (Ret (hypot train_distance (train_velocity * (IZR t * granularity)))).
  rewrite rbind_Ret, compute_free_space_loss_24 by now apply hypot_pos.
  rewrite rbind_Ret. now apply format_string_format_ok.
Qed.

Lemma sample_entry_AP2 (ap_distance train_distance train_velocity granularity : R)
    (mantissa_length t : Z) :
  train_distance <> 0%R -> 0 <= mantissa_length <= max_precision ->
  sample_entry ap_distance train_distance train_velocity granularity mantissa_length 2 t
  = Ret (format_fixed (Z.to_nat mantissa_length)
           (loss_formula 0.12491
              (hypot train_distance
                 (ap_distance - train_velocity * (IZR t * granularity))))).
Proof.
  intros Hd Hm. unfold sample_entry, default_band.
  change (current_signal_distance 2 train_distance ap_distance
            (IZR t * granularity) train_velocity)
    with (Ret (hypot train_distance
                 (ap_distance - train_velocity * (IZR t * granularity)))).
  rewrite rbind_Ret, compute_free_space_loss_24 by now apply hypot_pos.
  rewrite rbind_Ret. now apply format_string_format_ok.
Qed.

(** One sample of the suggested run: the train abreast of AP 1. *)
Lemma sample_losses_first_sample :
  sample_losses 100 10 92 0.001 3 1
  = Ret ([format_fixed 3 (loss_formula 0.12491 (hypot 10 (92 * (0 * 0.001))))],
         [format_fixed 3 (loss_formula 0.12491 (hypot 10 (100 - 92 * (0 * 0.001))))]).
Proof.
  unfold sample_losses. change (seqZ 0 1) with [0].
  apply (sample_loop_complete 100 10 92 0.001 3 [0] [] []).
  - constructor; [| constructor]. apply sample_entry_AP1; [lra | solve_precision].
  - constructor; [| constructor]. apply sample_entry_AP2; [lra | solve_precision].
Qed.

Lemma sample_losses_band_24_witness :
  is_loss_24_at 100 10 92 0.001 3 1 0
    (format_fixed 3 (loss_formula 0.12491 (hypot 10 (92 * (0 * 0.001)))))
  /\ is_loss_24_at 100 10 92 0.001 3 2 0
    (format_fixed 3 (loss_formula 0.12491 (hypot 10 (100 - 92 * (0 * 0.001))))).
Proof.
  split.
  - apply (sample_losses_band_24 100 10 92 0.001 1 3 _ _ sample_losses_first_sample
             0%nat); reflexivity.
  - apply (sample_losses_band_24 100 10 92 0.001 1 3 _ _ sample_losses_first_sample
             0%nat); reflexivity.
Defined.

(** ** Exceptions of the pure part *)

#[local] Hint Unfold is_ValueError : core.

Lemma current_signal_distance_raises (AP_number : Z) (d inter t v : R) (e : exn) :
  current_signal_distance AP_number d inter t v = Raise e -> is_ValueError e.
Proof.
  unfold current_signal_distance, ap_number_error.
  destruct (AP_number =? 1)%Z; [discriminate |].
  destruct (AP_number =? 2)%Z; [discriminate |].
  intros [= <-]. eauto.
Qed.

Lemma log10_raises (x : R) (e : exn) : log10 x = Raise e -> is_ValueError e.
Proof.
  unfold log10, math_domain_error. destruct (Rlt_dec 0 x); [discriminate |].
  intros [= <-]. eauto.
Qed.

Lemma compute_free_space_loss_raises (distance : R) (band : string) (e : exn) :
  compute_free_space_loss distance band = Raise e -> is_ValueError e.
Proof.
  unfold compute_free_space_loss, band_error.
  assert (Hlogs : forall w, (let! lw := log10 w in let! ld := log10 distance in
                     Ret (-20 * lw + 20 * ld + constant_factor)%R) = Raise e ->
                   is_ValueError e).
  { intros w. destruct (log10 w) as [lw |] eqn:Ew; cbn [rbind].
    - destruct (log10 distance) as [ld |] eqn:Ed; cbn [rbind]; [discriminate |].
      intros [= <-]. eapply log10_raises, Ed.
    - intros [= <-]. eapply log10_raises, Ew. }
  destruct (String.eqb band "2.4"); [apply Hlogs |].
  destruct (String.eqb band "5.0"); [apply Hlogs |].
  cbn [rbind]. intros [= <-]. eauto.
Qed.

Lemma format_string_format_raises (mantissa_length : Z) (x : R) (e : exn) :
  format_string_format mantissa_length x = Raise e -> is_ValueError e.
Proof.
  unfold format_string_format.
  destruct (mantissa_length <? 0)%Z; [intros [= <-]; eauto |].
  destruct (2 ^ 63 - 1 <? mantissa_length)%Z; [intros [= <-]; eauto |].
  destruct (max_precision <? mantissa_length)%Z; [intros [= <-]; eauto | discriminate].
Qed.

Lemma sample_loop_raises (ap_distance train_distance train_velocity granularity : R)
    (mantissa_length : Z) (ts : list Z) (e : exn) :
  forall a1 a2,
    sample_loop ap_distance train_distance train_velocity granularity
      mantissa_length ts a1 a2 = Raise e ->
    is_ValueError e.
Proof.
  induction ts as [| t ts IH]; intros a1 a2; [discriminate |].
  cbn [sample_loop]. cbv zeta.
  destruct (current_signal_distance 1 _ _ _ _) as [d1 |] eqn:E1; cbn [rbind];
    [| intros [= <-]; eapply current_signal_distance_raises, E1].
  destruct (compute_free_space_loss d1 _) as [x1 |] eqn:E2; cbn [rbind];
    [| intros [= <-]; eapply compute_free_space_loss_raises, E2].
  destruct (format_string_format _ x1) as [s1 |] eqn:E3; cbn [rbind];
    [| intros [= <-]; eapply format_string_format_raises, E3].
  destruct (current_signal_distance 2 _ _ _ _) as [d2 |] eqn:E4; cbn [rbind];
    [| intros [= <-]; eapply current_signal_distance_raises, E4].
  destruct (compute_free_space_loss d2 _) as [x2 |] eqn:E5; cbn [rbind];
    [| intros [= <-]; eapply compute_free_space_loss_raises, E5].
  destruct (format_string_format _ x2) as [s2 |] eqn:E6; cbn [rbind];
    [| intros [= <-]; eapply format_string_format_raises, E6].
  apply IH.
Qed.

(** ** Writing the output file *)

Lemma append_assoc_string (a b c : string) : (a ++ b) ++ c = a ++ (b ++ c).
Proof.
  induction a as [| x a IH]; [reflexivity |].
  change ((String x a ++ b) ++ c) with (String x ((a ++ b) ++ c)).
  now rewrite IH.
Qed.

Lemma for_each_write (name : string) (l : list string) :
  forall (w : World) (c : string) (fs : gmap string string),
    files w = <[name := c]> fs ->
    for_each l (fun loss => f_write name (loss ++ " ")) w
    = (mkWorld (stdout w) (<[name := c ++ line_of l]> fs), Ret tt).
Proof.
  induction l as [| x l IH]; intros [out fsw] c fs Hw; cbn [files stdout] in *; subst.
  - cbn [for_each line_of fold_right]. now rewrite append_empty_r.
  - cbn [for_each]. unfold io_bind at 1. unfold f_write at 1. cbn [files stdout].
    rewrite alter_insert_eq.
    rewrite (IH (mkWorld out (<[name := c ++ x ++ " "]> fs)) (c ++ x ++ " ") fs eq_refl).
    cbn [stdout line_of fold_right].
    now rewrite append_assoc_string.
Qed.

Lemma main_Ret (ap_distance train_distance train_velocity granularity : R)
    (sample_count mantissa_length : Z) (l1 l2 : list string) (w : World) :
  sample_losses ap_distance train_distance train_velocity granularity
    mantissa_length sample_count = Ret (l1, l2) ->
  main ap_distance train_distance train_velocity granularity
    sample_count mantissa_length w
  = (mkWorld (stdout w) (<[out_name := line_of l1 ++ nl ++ line_of l2]> (files w)),
     Raise (SystemExit 0)).
Proof.
  intros Hrun. unfold main. unfold io_bind at 1. unfold lift. rewrite Hrun.
  cbn [fst snd]. unfold io_bind at 1. unfold open_w at 1.
  unfold io_bind at 1.
  rewrite (for_each_write out_name l1
             (mkWorld (stdout w) (<[out_name := ""]> (files w))) "" (files w) eq_refl).
  cbn [stdout].
  unfold io_bind at 1. unfold f_write at 1. cbn [files stdout].
  rewrite alter_insert_eq. unfold io_bind at 1.
  rewrite (for_each_write out_name l2
             (mkWorld (stdout w) (<[out_name := ("" ++ line_of l1) ++ nl]> (files w)))
             (("" ++ line_of l1) ++ nl) (files w) eq_refl).
  cbn [stdout]. unfold sys_exit, raise.
  change ("" ++ line_of l1) with (line_of l1).
  now rewrite append_assoc_string.
Qed.

Lemma main_Raise (ap_distance train_distance train_velocity granularity : R)
    (sample_count mantissa_length : Z) (e : exn) (w : World) :
  sample_losses ap_distance train_distance train_velocity granularity
    mantissa_length sample_count = Raise e ->
  main ap_distance train_distance train_velocity granularity
    sample_count mantissa_length w = (w, Raise e).
Proof.
  intros Hrun. unfold main. unfold io_bind at 1. unfold lift. now rewrite Hrun.
Qed.

Lemma no_newline_line_of (l : list string) :
  Forall (fun s => no_newline s = true) l -> no_newline (line_of l) = true.
Proof.
  induction 1 as [| s l Hs _ IH]; [reflexivity |].
  cbn [line_of fold_right]. fold (line_of l).
  now rewrite !no_newline_app, Hs, IH.
Qed.

Lemma split_on_no_newline (b : string) :
  no_newline b = true -> split_on newline b = [b].
Proof.
  induction b as [| c b IH]; [reflexivity |].
  cbn [no_newline split_on]. intros [Hc Hb]%andb_prop.
  apply negb_true_iff in Hc. now rewrite Hc, (IH Hb).
Qed.

Lemma split_on_newline_app (a rest : string) :
  no_newline a = true ->
  split_on newline (a ++ String newline rest) = a :: split_on newline rest.
Proof.
  induction a as [| c a IH].
  - intros _. change ("" ++ String newline rest) with (String newline rest).
    cbn [split_on]. now rewrite Ascii.eqb_refl.
  - cbn [no_newline]. intros [Hc Ha]%andb_prop. apply negb_true_iff in Hc.
    change (String c a ++ String newline rest)
      with (String c (a ++ String newline rest)).
    cbn [split_on]. now rewrite Hc, (IH Ha).
Qed.

Lemma two_lines (a b : string) :
  no_newline a = true -> no_newline b = true ->
  split_on newline (a ++ nl ++ b) = [a; b].
Proof.
  intros Ha Hb. change (nl ++ b) with (String newline b).
  now rewrite (split_on_newline_app a b Ha), (split_on_no_newline b Hb).
Qed.

Lemma entries_no_newline (ap_distance train_distance train_velocity granularity : R)
    (mantissa_length AP_number : Z) (ts : list Z) (l : list string) :
  Forall2 (fun t s => sample_entry ap_distance train_distance train_velocity
                        granularity mantissa_length AP_number t = Ret s) ts l ->
  Forall (fun s => no_newline s = true) l.
Proof.
  induction 1 as [| t s ts l He _ IH]; constructor; [| exact IH].
  apply sample_entry_Ret in He as (d & _ & _ & _ & _ & ->).
  apply no_newline_format_fixed.
Qed.

(** C8: when [main] ends with exit status 0, the file
    wifi_signal_simulator.out holds, whatever it held before, exactly two
    lines: the AP 1 strings each followed by a space, a newline, then the
    AP 2 strings each followed by a space and nothing after them.  No other
    file and no output stream is touched. *)
Theorem main_writes_output
    (ap_distance train_distance train_velocity granularity : R)
    (sample_count mantissa_length : Z) (w : World) :
  snd (main ap_distance train_distance train_velocity granularity
         sample_count mantissa_length w) = Raise (SystemExit 0) ->
  exists l1 l2,
    sample_losses ap_distance train_distance train_velocity granularity
      mantissa_length sample_count = Ret (l1, l2)
    /\ fst (main ap_distance train_distance train_velocity granularity
              sample_count mantissa_length w)
       = mkWorld (stdout w)
           (<["wifi_signal_simulator.out" := line_of l1 ++ nl ++ line_of l2]> (files w))
    /\ split_on newline (line_of l1 ++ nl ++ line_of l2) = [line_of l1; line_of l2].
Proof.
  intros Hexit.
  destruct (sample_losses ap_distance train_distance train_velocity granularity
              mantissa_length sample_count) as [[l1 l2] | e] eqn:Hrun.
  - exists l1, l2. split; [reflexivity |].
    rewrite (main_Ret _ _ _ _ _ _ l1 l2 w Hrun). split; [reflexivity |].
    apply sample_losses_Ret in Hrun as [F1 F2].
    apply two_lines; apply no_newline_line_of; eapply entries_no_newline; eassumption.
  - exfalso. rewrite (main_Raise _ _ _ _ _ _ e w Hrun) in Hexit. cbn [snd] in Hexit.
    apply sample_loop_raises in Hrun as [msg ->]. discriminate.
Qed.

Lemma main_writes_output_witness :
  exists l1 l2,
    sample_losses 100 10 92 0.001 3 1 = Ret (l1, l2)
    /\ fst (main 100 10 92 0.001 1 3
              (mkWorld "" (<["wifi_signal_simulator.out" := "stale"]> ∅)))
       = mkWorld ""
           (<["wifi_signal_simulator.out" := line_of l1 ++ nl ++ line_of l2]>
              (<["wifi_signal_simulator.out" := "stale"]> ∅))
    /\ split_on newline (line_of l1 ++ nl ++ line_of l2) = [line_of l1; line_of l2].
Proof.
  pose proof (main_writes_output 100 10 92 0.001 1 3
                (mkWorld "" (<["wifi_signal_simulator.out" := "stale"]> ∅))) as H.
  cbn [stdout files] in H. apply H.
  rewrite (main_Ret 100 10 92 0.001 1 3 _ _ _ sample_losses_first_sample).
  reflexivity.
Defined.

(** The earlier contents of the output file do not survive a run. *)
Lemma main_overwrites
    (ap_distance train_distance train_velocity granularity : R)
    (sample_count mantissa_length : Z) (l1 l2 : list string) (w : World) :
  sample_losses ap_distance train_distance train_velocity granularity
    mantissa_length sample_count = Ret (l1, l2) ->
  files (fst (main ap_distance train_distance train_velocity granularity
                sample_count mantissa_length w)) !! out_name
  = Some (line_of l1 ++ nl ++ line_of l2)
  /\ forall name, name <> out_name ->
       files (fst (main ap_distance train_distance train_velocity granularity
                     sample_count mantissa_length w)) !! name
       = files w !! name.
Proof.
  intros Hrun. rewrite (main_Ret _ _ _ _ _ _ l1 l2 w Hrun). cbn [fst files].
  split; [apply lookup_insert_eq |].
  intros name Hne. now apply lookup_insert_ne.
Qed.

(** ** The command line *)

Lemma usage_prints (prog : string) (rest : list string) (w : World) :
  usage (prog :: rest) w = (mkWorld (stdout w ++ usage_text prog) (files w), Ret tt).
Proof.
  unfold usage, io_bind, print, usage_text. cbn [stdout files argv0 nth].
  now rewrite !append_assoc_string.
Qed.

(** C9: with a number of arguments other than three the script prints the
    usage text on standard output and ends through [sys.exit(1)]: the exit
    status is 1, no other exception is raised and no file is created or
    changed. *)
Theorem wrong_argument_count (prog : string) (args : list string) (w : World) :
  length args <> 3%nat ->
  script (prog :: args) w
  = (mkWorld (stdout w ++ usage_text prog) (files w), Raise (SystemExit 1))
  /\ exit_status (snd (script (prog :: args) w)) = 1.
Proof.
  intros Hlen.
  assert (E : script (prog :: args) w
              = (mkWorld (stdout w ++ usage_text prog) (files w), Raise (SystemExit 1))).
  { unfold script. cbn [length].
    destruct (Nat.eqb_spec (S (length args)) 4) as [E | _]; [lia |].
    cbn [negb]. unfold io_bind. now rewrite usage_prints. }
  now rewrite E.
Qed.

Lemma wrong_argument_count_witness :
  script ["wifi_signal_simulator.py"; "100"; "10"] (mkWorld "" ∅)
  = (mkWorld ("" ++ usage_text "wifi_signal_simulator.py") ∅, Raise (SystemExit 1))
  /\ exit_status
       (snd (script ["wifi_signal_simulator.py"; "100"; "10"] (mkWorld "" ∅))) = 1.
Proof.
  apply (wrong_argument_count "wifi_signal_simulator.py" ["100"; "10"] (mkWorld "" ∅)).
  cbn [length]. lia.
Defined.

Lemma py_int_raises (s : string) (e : exn) : py_int s = Raise e -> is_ValueError e.
Proof.
  unfold py_int. destruct (match rstrip (lstrip s) with "" => _ | String _ _ => _ end)
    as [sign ds].
  destruct ds; [intros [= <-]; eauto |].
  destruct (digits_value _ 0); [discriminate | intros [= <-]; eauto].
Qed.

(** With three arguments the script runs [main] on their integer values and
    the default sampling; a [ValueError] prints the usage and ends the
    process with status 1, leaving the files alone. *)
Lemma script_three_arguments (prog sa sb sc : string) (w : World) :
  (exists a b c l1 l2,
      py_int sa = Ret a /\ py_int sb = Ret b /\ py_int sc = Ret c
      /\ sample_losses (IZR a) (IZR b) (IZR c) default_granularity
           default_mantissa_length default_sample_count = Ret (l1, l2)
      /\ script [prog; sa; sb; sc] w
         = (mkWorld (stdout w)
              (<[out_name := line_of l1 ++ nl ++ line_of l2]> (files w)),
            Raise (SystemExit 0)))
  \/ (exists msg,
      script [prog; sa; sb; sc] w
      = (mkWorld (stdout w ++ usage_text prog) (files w), Raise (ValueError msg))).
Proof.
  unfold script. cbn [length Nat.eqb negb nth].
  unfold try_except_ValueError, io_bind, lift.
  destruct (py_int sa) as [a | e] eqn:Ea;
    [| right; destruct (py_int_raises sa e Ea) as [msg ->]; exists msg;
       now rewrite usage_prints].
  destruct (py_int sb) as [b | e] eqn:Eb;
    [| right; destruct (py_int_raises sb e Eb) as [msg ->]; exists msg;
       now rewrite usage_prints].
  destruct (py_int sc) as [c | e] eqn:Ec;
    [| right; destruct (py_int_raises sc e Ec) as [msg ->]; exists msg;
       now rewrite usage_prints].
  destruct (sample_losses (IZR a) (IZR b) (IZR c) default_granularity
              default_mantissa_length default_sample_count) as [[l1 l2] | e] eqn:Hrun.
  - left. exists a, b, c, l1, l2. rewrite (main_Ret _ _ _ _ _ _ l1 l2 w Hrun). auto.
  - right. rewrite (main_Raise _ _ _ _ _ _ e w Hrun).
    apply sample_loop_raises in Hrun as [msg ->]. exists msg.
    now rewrite usage_prints.
Qed.

(** The suggested invocation succeeds. *)
Lemma script_suggested_values (w : World) :
  exists l1 l2,
    length l1 = 5000%nat /\ length l2 = 5000%nat
    /\ script ["wifi_signal_simulator.py"; "100"; "10"; "92"] w
       = (mkWorld (stdout w)
            (<[out_name := line_of l1 ++ nl ++ line_of l2]> (files w)),
          Raise (SystemExit 0)).
Proof.
  destruct (sample_losses_valid 100 10 92 default_granularity
              default_mantissa_length default_sample_count)
    as (l1 & l2 & Hrun); [lra | solve_precision |].
  destruct (sample_losses_length _ _ _ _ _ _ _ _ Hrun) as [Hl1 Hl2].
  exists l1, l2. split; [exact Hl1 |]. split; [exact Hl2 |].
  unfold script. cbn [length Nat.eqb negb nth].
  unfold try_except_ValueError, io_bind, lift.
  change (py_int "100") with (Ret 100).
  change (py_int "10") with (Ret 10).
  change (py_int "92") with (Ret 92).
  cbv beta iota.
  now rewrite (main_Ret _ _ _ _ _ _ l1 l2 w Hrun).
Qed.

(** ** The formatting model on concrete numbers *)

Lemma round_half_even_cases (x : R) (z : Z) (f : R) :
  x = (IZR z + f)%R -> (0 <= f < 1)%R ->
  round_half_even x
  = if Rlt_dec f (1 / 2) then z
    else if Rlt_dec (1 / 2) f then z + 1
    else if Z.even z then z else z + 1.
Proof.
  intros Hx Hf. destruct (Int_part_frac_part_spec x z f Hf Hx) as [Hz Hfr].
  unfold round_half_even. now rewrite <- Hz, <- Hfr.
Qed.

Lemma round_half_even_down (x : R) (z : Z) :
  (IZR z <= x < IZR z + 1 / 2)%R -> round_half_even x = z.
Proof.
  intros Hx. rewrite (round_half_even_cases x z (x - IZR z)) by lra.
  destruct (Rlt_dec (x - IZR z) (1 / 2)); [reflexivity | lra].
Qed.

Lemma round_half_even_up (x : R) (z : Z) :
  (IZR z + 1 / 2 < x < IZR z + 1)%R -> round_half_even x = z + 1.
Proof.
  intros Hx. rewrite (round_half_even_cases x z (x - IZR z)) by lra.
  destruct (Rlt_dec (x - IZR z) (1 / 2)); [lra |].
  destruct (Rlt_dec (1 / 2) (x - IZR z)); [reflexivity | lra].
Qed.

Lemma round_half_even_tie (z : Z) :
  round_half_even (IZR z + 1 / 2) = if Z.even z then z else z + 1.
Proof.
  rewrite (round_half_even_cases (IZR z + 1 / 2) z (1 / 2)) by lra.
  destruct (Rlt_dec (1 / 2) (1 / 2)); [lra | reflexivity].
Qed.

Lemma format_fixed_nonneg (p : nat) (x : R) (m : Z) :
  (0 <= x)%R -> round_half_even (x * 10 ^ p) = m ->
  format_fixed p x
  = str_int (m / 10 ^ Z.of_nat p)
      ++ (match p with O => "" | S _ => "." ++ frac_digits p m end).
Proof.
  intros Hx Hm. unfold format_fixed, unsigned_part.
  destruct (Rlt_dec x 0); [lra |]. now rewrite (Rabs_pos_eq x Hx), Hm.
Qed.

Lemma format_fixed_neg (p : nat) (x : R) (m : Z) :
  (x < 0)%R -> round_half_even (- x * 10 ^ p) = m ->
  format_fixed p x
  = "-" ++ str_int (m / 10 ^ Z.of_nat p)
      ++ (match p with O => "" | S _ => "." ++ frac_digits p m end).
Proof.
  intros Hx Hm. unfold format_fixed, unsigned_part.
  destruct (Rlt_dec x 0); [| lra]. now rewrite (Rabs_left x Hx), Hm.
Qed.

Example format_fixed_rounds_down : format_fixed 3 60.0524 = "60.052".
Proof.
  rewrite (format_fixed_nonneg 3 60.0524 60052); [reflexivity | lra |].
  apply round_half_even_down. simpl. lra.
Qed.

Example format_fixed_rounds_up : format_fixed 3 60.0526 = "60.053".
Proof.
  rewrite (format_fixed_nonneg 3 60.0526 60053); [reflexivity | lra |].
  apply (round_half_even_up _ 60052). simpl. lra.
Qed.

Example format_fixed_tie_to_even : format_fixed 1 2.25 = "2.2".
Proof.
  rewrite (format_fixed_nonneg 1 2.25 22); [reflexivity | lra |].
  replace (2.25 * 10 ^ 1)%R with (IZR 22 + 1 / 2)%R by (simpl; lra).
  apply round_half_even_tie.
Qed.

Example format_fixed_no_point : format_fixed 0 36.4 = "36".
Proof.
  rewrite (format_fixed_nonneg 0 36.4 36); [reflexivity | lra |].
  apply round_half_even_down. simpl. lra.
Qed.

Example format_fixed_negative_zero : format_fixed 3 (-0.0001) = "-0.000".
Proof.
  rewrite (format_fixed_neg 3 (-0.0001) 0); [reflexivity | lra |].
  apply round_half_even_down. simpl. lra.
Qed.

Example format_fixed_pads : format_fixed 3 7 = "7.000".
Proof.
  rewrite (format_fixed_nonneg 3 7 7000); [reflexivity | lra |].
  apply round_half_even_down. simpl. lra.
Qed.

(** ** The executable parts on concrete inputs *)

Example str_int_negative : str_int (-1) = "-1".
Proof. reflexivity. Qed.

Example py_int_accepts : py_int " 92 " = Ret 92 /\ py_int "-7" = Ret (-7).
Proof. split; reflexivity. Qed.

Example py_int_rejects :
  py_int "abc" = Raise (ValueError "invalid literal for int() with base 10: 'abc'")
  /\ py_int "92.5" = Raise (ValueError "invalid literal for int() with base 10: '92.5'").
Proof. split; reflexivity. Qed.

Example is_fixed_point_examples :
  is_fixed_point 3 "36.458" = true /\ is_fixed_point 3 "36.45" = false
  /\ is_fixed_point 0 "36" = true /\ is_fixed_point 3 "3e1.458" = false.
Proof. repeat split. Qed.

Example line_of_example : line_of ["1.000"; "2.000"] = "1.000 2.000 ".
Proof. reflexivity. Qed.

(** At time zero the distance to AP 2 is the norm of both given distances. *)
Example current_signal_distance_AP2_start (d inter v : R) :
  current_signal_distance 2 d inter 0 v = Ret (hypot d inter).
Proof.
  unfold current_signal_distance. cbn [Z.eqb Pos.eqb]. cbv zeta.
  now rewrite Rmult_0_r, Rminus_0_r.
Qed.

(** ** Geometry of the two distances *)

Lemma hypot_ge_abs (a b : R) : (Rabs a <= hypot a b)%R.
Proof.
  unfold hypot. rewrite <- (sqrt_Rsqr_abs a). unfold Rsqr.
  apply sqrt_le_1_alt. nra.
Qed.

Lemma hypot_lt_compat (a b c : R) : (b * b < c * c)%R -> (hypot a b < hypot a c)%R.
Proof. intros H. unfold hypot. apply sqrt_lt_1_alt. nra. Qed.


Lemma hypot_eq_compat (a b c : R) : (b * b = c * c)%R -> hypot a b = hypot a c.
Proof. intros H. unfold hypot. now rewrite H. Qed.

Lemma Rlog10_le (x y : R) : (0 < x)%R -> (x <= y)%R -> (Rlog10 x <= Rlog10 y)%R.
Proof.
  intros Hx [Hlt | ->]; [left; now apply Rlog10_increasing | right; reflexivity].
Qed.




Lemma current_signal_distance_ge_abs (AP_number : Z) (d inter t v dist : R) :
  current_signal_distance AP_number d inter t v = Ret dist ->
  (Rabs d <= dist)%R.
Proof.
  unfold current_signal_distance.
  destruct (AP_number =? 1)%Z; [intros [= <-]; apply hypot_ge_abs |].
  destruct (AP_number =? 2)%Z; [intros [= <-]; apply hypot_ge_abs | discriminate].
Qed.








(** ** Algebra of the loss *)

Lemma Rlog10_1 : Rlog10 1 = 0%R.
Proof. unfold Rlog10. rewrite ln_1. pose proof ln10_pos. field. lra. Qed.

Lemma compute_free_space_loss_supported (d : R) (band : string) :
  band = "2.4" \/ band = "5.0" -> (0 < d)%R ->
  exists wavelength,
    (0 < wavelength < 1)%R
    /\ compute_free_space_loss d band = Ret (loss_formula wavelength d).
Proof.
  intros [-> | ->] Hd.
  - exists 0.12491%R. split; [lra | now apply compute_free_space_loss_24].
  - exists 0.05996%R. split; [lra | now apply compute_free_space_loss_50].
Qed.

Lemma loss_formula_lower_bound (wavelength d : R) :
  (0 < wavelength < 1)%R -> (1 <= d)%R -> (21.984 < loss_formula wavelength d)%R.
Proof.
  intros Hw Hd. unfold loss_formula.
  assert (Rlog10 wavelength < 0)%R
    by (rewrite <- Rlog10_1; apply Rlog10_increasing; lra).
  assert (0 <= Rlog10 d)%R by (rewrite <- Rlog10_1; apply Rlog10_le; lra).
  lra.
Qed.

(** X8: at a distance of one metre or more the loss on either supported
    band exceeds the constant term 21.984 dB, so it is positive. *)
Theorem compute_free_space_loss_lower_bound (band : string) (d : R) :
  band = "2.4" \/ band = "5.0" -> (1 <= d)%R ->
  exists loss,
    compute_free_space_loss d band = Ret loss /\ (21.984 < loss)%R.
Proof.
  intros Hb Hd.
  destruct (compute_free_space_loss_supported d band Hb) as (w & Hw & E); [lra |].
  exists (loss_formula w d). split; [exact E |].
  now apply loss_formula_lower_bound.
Qed.

Lemma compute_free_space_loss_lower_bound_witness :
  exists loss,
    compute_free_space_loss 1 "2.4" = Ret loss /\ (21.984 < loss)%R.
Proof.
  apply (compute_free_space_loss_lower_bound "2.4" 1); [now left | lra].
Defined.

(** ** Longer and shorter runs of the loop *)

Lemma sample_loop_app (ap_distance train_distance train_velocity granularity : R)
    (mantissa_length : Z) (ts1 ts2 : list Z) :
  forall a1 a2,
    sample_loop ap_distance train_distance train_velocity granularity
      mantissa_length (ts1 ++ ts2)%list a1 a2
    = let! r := sample_loop ap_distance train_distance train_velocity granularity
                  mantissa_length ts1 a1 a2 in
      sample_loop ap_distance train_distance train_velocity granularity
        mantissa_length ts2 (fst r) (snd r).
Proof.
  induction ts1 as [| t ts1 IH]; intros a1 a2; [reflexivity |].
  change ((t :: ts1) ++ ts2)%list with (t :: (ts1 ++ ts2))%list.
  cbn [sample_loop]. cbv zeta.
  destruct (current_signal_distance 1 _ _ _ _) as [d1 |]; cbn [rbind]; [| reflexivity].
  destruct (compute_free_space_loss d1 _) as [x1 |]; cbn [rbind]; [| reflexivity].
  destruct (format_string_format _ x1) as [s1 |]; cbn [rbind]; [| reflexivity].
  destruct (current_signal_distance 2 _ _ _ _) as [d2 |]; cbn [rbind]; [| reflexivity].
  destruct (compute_free_space_loss d2 _) as [x2 |]; cbn [rbind]; [| reflexivity].
  destruct (format_string_format _ x2) as [s2 |]; cbn [rbind]; [| reflexivity].
  apply IH.
Qed.

Lemma sample_losses_split (ap_distance train_distance train_velocity granularity : R)
    (mantissa_length n k : Z) :
  0 <= n -> 0 <= k ->
  sample_losses ap_distance train_distance train_velocity granularity
    mantissa_length (n + k)
  = let! r := sample_losses ap_distance train_distance train_velocity granularity
                mantissa_length n in
    sample_loop ap_distance train_distance train_velocity granularity
      mantissa_length (seqZ n k) (fst r) (snd r).
Proof.
  intros Hn Hk. unfold sample_losses.
  rewrite (seqZ_app 0 n k Hn Hk), Z.add_0_l. apply sample_loop_app.
Qed.

(** X9: more samples never change the earlier ones: when a run of [n + k]
    samples returns, the run of [n] samples returns too, and its two lists
    are the first [n] entries of the longer run's lists. *)
Theorem sample_losses_prefix
    (ap_distance train_distance train_velocity granularity : R)
    (mantissa_length n k : Z) (l1 l2 : list string) :
  0 <= n -> 0 <= k ->
  sample_losses ap_distance train_distance train_velocity granularity
    mantissa_length (n + k) = Ret (l1, l2) ->
  sample_losses ap_distance train_distance train_velocity granularity
    mantissa_length n = Ret (take (Z.to_nat n) l1, take (Z.to_nat n) l2).
Proof.
  intros Hn Hk. rewrite (sample_losses_split _ _ _ _ _ n k Hn Hk).
  destruct (sample_losses _ _ _ _ _ n) as [[b1 b2] |] eqn:Hshort; cbn [rbind fst snd];
    [| discriminate].
  intros Hrest.
  destruct (sample_losses_length _ _ _ _ _ _ _ _ Hshort) as [Hb1 Hb2].
  apply sample_loop_Ret in Hrest as (e1 & e2 & -> & -> & _ & _).
  rewrite <- Hb1 at 1. rewrite <- Hb2.
  now rewrite !take_app_length.
Qed.

(** Two samples of the suggested run. *)
Lemma sample_losses_two_samples :
  sample_losses 100 10 92 0.001 3 (1 + 1)
  = Ret ([format_fixed 3 (loss_formula 0.12491 (hypot 10 (92 * (0 * 0.001))));
          format_fixed 3 (loss_formula 0.12491 (hypot 10 (92 * (1 * 0.001))))],
         [format_fixed 3 (loss_formula 0.12491 (hypot 10 (100 - 92 * (0 * 0.001))));
          format_fixed 3 (loss_formula 0.12491 (hypot 10 (100 - 92 * (1 * 0.001))))]).
Proof.
  unfold sample_losses. change (seqZ 0 (1 + 1)) with [0; 1].
  apply (sample_loop_complete 100 10 92 0.001 3 [0; 1] [] []).
  - repeat constructor; apply sample_entry_AP1; solve [lra | solve_precision].
  - repeat constructor; apply sample_entry_AP2; solve [lra | solve_precision].
Qed.

Lemma sample_losses_prefix_witness :
  sample_losses 100 10 92 0.001 3 1
  = Ret (take (Z.to_nat 1)
           [format_fixed 3 (loss_formula 0.12491 (hypot 10 (92 * (0 * 0.001))));
            format_fixed 3 (loss_formula 0.12491 (hypot 10 (92 * (1 * 0.001))))],
         take (Z.to_nat 1)
           [format_fixed 3 (loss_formula 0.12491 (hypot 10 (100 - 92 * (0 * 0.001))));
            format_fixed 3 (loss_formula 0.12491 (hypot 10 (100 - 92 * (1 * 0.001))))]).
Proof.
  apply (sample_losses_prefix 100 10 92 0.001 3 1 1); [lia | lia |].
  exact sample_losses_two_samples.
Defined.

(** X10: a run that raises keeps raising: when the run of [n] samples ends
    in an exception, every longer run ends in that same exception. *)
Theorem sample_losses_failure_persists
    (ap_distance train_distance train_velocity granularity : R)
    (mantissa_length n k : Z) (e : exn) :
  0 <= n -> 0 <= k ->
  sample_losses ap_distance train_distance train_velocity granularity
    mantissa_length n = Raise e ->
  sample_losses ap_distance train_distance train_velocity granularity
    mantissa_length (n + k) = Raise e.
Proof.
  intros Hn Hk Hshort. rewrite (sample_losses_split _ _ _ _ _ n k Hn Hk).
  now rewrite Hshort.
Qed.

Lemma sample_losses_failure_persists_witness :
  sample_losses 100 0 92 0.001 3 (1 + 4999) = Raise math_domain_error.
Proof.
  apply (sample_losses_failure_persists 100 0 92 0.001 3 1 4999); [lia | lia |].
  apply sample_losses_on_the_line. lia.
Defined.

(** ** What [main] can do *)

(** X11: on a finite run [main] has two outcomes only, and never returns
    normally.  Either the loop returns and [main] ends through [sys.exit(0)]
    with the output file written and nothing else changed, or the loop
    raises a [ValueError] and [main] raises it with the world exactly as it
    was: the file is not created, truncated or partly written. *)
Theorem main_outcome
    (ap_distance train_distance train_velocity granularity : R)
    (sample_count mantissa_length : Z) (w : World) :
  finite_run ap_distance train_distance train_velocity granularity sample_count ->
  (exists l1 l2,
      sample_losses ap_distance train_distance train_velocity granularity
        mantissa_length sample_count = Ret (l1, l2)
      /\ main ap_distance train_distance train_velocity granularity
           sample_count mantissa_length w
         = (mkWorld (stdout w)
              (<[out_name := line_of l1 ++ nl ++ line_of l2]> (files w)),
            Raise (SystemExit 0)))
  \/ (exists msg,
      sample_losses ap_distance train_distance train_velocity granularity
        mantissa_length sample_count = Raise (ValueError msg)
      /\ main ap_distance train_distance train_velocity granularity
           sample_count mantissa_length w
         = (w, Raise (ValueError msg))).
Proof.
  intros _.
  destruct (sample_losses ap_distance train_distance train_velocity granularity
              mantissa_length sample_count) as [[l1 l2] | e] eqn:Hrun.
  - left. exists l1, l2. split; [reflexivity | now apply main_Ret].
  - right. destruct (sample_loop_raises _ _ _ _ _ _ _ _ _ Hrun) as [msg ->].
    exists msg. split; [reflexivity | now apply main_Raise].
Qed.

Lemma finite_run_on_the_line : finite_run 100 0 92 0.001 1.
Proof.
  unfold finite_run.
  repeat (split; [apply in_range_small;
                  first [rewrite Rabs_pos_eq; lra | rewrite Rabs_R0; lra] |]).
  split; [lia |].
  intros i Hi. replace i with 0 by lia.
  split; apply in_range_small; rewrite Rabs_pos_eq; lra.
Qed.

(** Both outcomes occur: the suggested arguments succeed, a train on the
    line of the APs fails and leaves the stale file alone. *)
Lemma main_outcome_witness :
  ((exists l1 l2,
       sample_losses 100 10 92 0.001 3 1 = Ret (l1, l2)
       /\ main 100 10 92 0.001 1 3
            (mkWorld "" (<["wifi_signal_simulator.out" := "stale"]> ∅))
          = (mkWorld ""
               (<[out_name := line_of l1 ++ nl ++ line_of l2]>
                  (<["wifi_signal_simulator.out" := "stale"]> ∅)),
             Raise (SystemExit 0)))
   \/ (exists msg,
       sample_losses 100 10 92 0.001 3 1 = Raise (ValueError msg)
       /\ main 100 10 92 0.001 1 3
            (mkWorld "" (<["wifi_signal_simulator.out" := "stale"]> ∅))
          = (mkWorld "" (<["wifi_signal_simulator.out" := "stale"]> ∅),
             Raise (ValueError msg))))
  /\ ((exists l1 l2,
       sample_losses 100 0 92 0.001 3 1 = Ret (l1, l2)
       /\ main 100 0 92 0.001 1 3
            (mkWorld "" (<["wifi_signal_simulator.out" := "stale"]> ∅))
          = (mkWorld ""
               (<[out_name := line_of l1 ++ nl ++ line_of l2]>
                  (<["wifi_signal_simulator.out" := "stale"]> ∅)),
             Raise (SystemExit 0)))
   \/ (exists msg,
       sample_losses 100 0 92 0.001 3 1 = Raise (ValueError msg)
       /\ main 100 0 92 0.001 1 3
            (mkWorld "" (<["wifi_signal_simulator.out" := "stale"]> ∅))
          = (mkWorld "" (<["wifi_signal_simulator.out" := "stale"]> ∅),
             Raise (ValueError msg)))).
Proof.
  split.
  - pose proof (main_outcome 100 10 92 0.001 1 3
                  (mkWorld "" (<["wifi_signal_simulator.out" := "stale"]> ∅))
                  (finite_run_suggested 1 ltac:(lia))) as H.
    cbn [stdout files] in H. exact H.
  - pose proof (main_outcome 100 0 92 0.001 1 3
                  (mkWorld "" (<["wifi_signal_simulator.out" := "stale"]> ∅))
                  finite_run_on_the_line) as H.
    cbn [stdout files] in H. exact H.
Defined.

(** X12: with a sample count of zero or less the range is empty: whatever
    the other arguments are (a train on the line of the APs, a negative
    precision) [main] succeeds and the output file holds a single newline. *)
Theorem main_no_samples
    (ap_distance train_distance train_velocity granularity : R)
    (sample_count mantissa_length : Z) (w : World) :
  sample_count <= 0 ->
  main ap_distance train_distance train_velocity granularity
    sample_count mantissa_length w
  = (mkWorld (stdout w) (<[out_name := nl]> (files w)), Raise (SystemExit 0)).
Proof.
  intros Hn.
  apply (main_Ret ap_distance train_distance train_velocity granularity
           sample_count mantissa_length [] [] w).
  unfold sample_losses. now rewrite seqZ_nil.
Qed.

Lemma main_no_samples_witness :
  main 100 0 92 0.001 0 (-3) (mkWorld "" ∅)
  = (mkWorld "" (<[out_name := nl]> ∅), Raise (SystemExit 0)).
Proof. apply (main_no_samples 100 0 92 0.001 0 (-3) (mkWorld "" ∅)). lia. Defined.

(** ** Reading the output file back *)

Lemma no_char_app (c : ascii) (a b : string) :
  no_char c (a ++ b) = no_char c a && no_char c b.
Proof.
  induction a as [| x a IH]; [reflexivity |].
  change (String x a ++ b) with (String x (a ++ b)).
  cbn [no_char]. rewrite IH. now rewrite andb_assoc.
Qed.

Lemma all_digits_no_char (c : ascii) (s : string) :
  is_digit c = false -> all_digits s = true -> no_char c s = true.
Proof.
  intros Hc. induction s as [| x s IH]; [reflexivity |].
  cbn [all_digits no_char]. intros [Hx Hs]%andb_prop. rewrite (IH Hs).
  destruct (Ascii.eqb_spec x c) as [-> | _]; [congruence | reflexivity].
Qed.

(** A formatted number holds digits, a point and a minus sign only. *)
Lemma no_char_format_fixed (c : ascii) (p : nat) (x : R) :
  is_digit c = false -> c <> "-"%char -> c <> "."%char ->
  no_char c (format_fixed p x) = true.
Proof.
  intros Hc Hminus Hpoint. unfold format_fixed, unsigned_part. cbv zeta.
  destruct (integer_digits p x) as [Hd _]. cbv zeta in Hd.
  assert (Hm : Ascii.eqb "-" c = false)
    by (destruct (Ascii.eqb_spec "-" c); [congruence | reflexivity]).
  assert (Hp : Ascii.eqb "." c = false)
    by (destruct (Ascii.eqb_spec "." c); [congruence | reflexivity]).
  rewrite !no_char_app, (all_digits_no_char c _ Hc Hd).
  assert (Hs : no_char c (if Rlt_dec x 0 then "-" else "") = true).
  { destruct (Rlt_dec x 0); [| reflexivity]. cbn [no_char]. now rewrite Hm. }
  rewrite Hs. destruct p as [| p']; [reflexivity |].
  rewrite no_char_app, (all_digits_no_char c _ Hc (all_digits_frac_digits _ _)).
  cbn [no_char]. now rewrite Hp.
Qed.

Lemma split_on_app_sep (c : ascii) (a rest : string) :
  no_char c a = true ->
  split_on c (a ++ String c rest) = a :: split_on c rest.
Proof.
  induction a as [| x a IH].
  - intros _. change ("" ++ String c rest) with (String c rest).
    cbn [split_on]. now rewrite Ascii.eqb_refl.
  - cbn [no_char]. intros [Hx Ha]%andb_prop. apply negb_true_iff in Hx.
    change (String x a ++ String c rest) with (String x (a ++ String c rest)).
    cbn [split_on]. now rewrite Hx, (IH Ha).
Qed.

Lemma split_on_line_of (l : list string) :
  Forall (fun s => no_char " " s = true) l ->
  split_on " " (line_of l) = (l ++ [""])%list.
Proof.
  induction 1 as [| s l Hs _ IH]; [reflexivity |].
  cbn [line_of fold_right]. fold (line_of l).
  rewrite append_assoc_string.
  change (" " ++ line_of l) with (String " " (line_of l)).
  now rewrite (split_on_app_sep " " s _ Hs), IH.
Qed.

Lemma entries_no_space (ap_distance train_distance train_velocity granularity : R)
    (mantissa_length AP_number : Z) (ts : list Z) (l : list string) :
  Forall2 (fun t s => sample_entry ap_distance train_distance train_velocity
                        granularity mantissa_length AP_number t = Ret s) ts l ->
  Forall (fun s => no_char " " s = true) l.
Proof.
  induction 1 as [| t s ts l He _ IH]; constructor; [| exact IH].
  apply sample_entry_Ret in He as (d & _ & _ & _ & _ & ->).
  apply no_char_format_fixed; [reflexivity | discriminate | discriminate].
Qed.

Lemma entries_no_newline_lines
    (ap_distance train_distance train_velocity granularity : R)
    (mantissa_length sample_count : Z) (l1 l2 : list string) :
  sample_losses ap_distance train_distance train_velocity granularity
    mantissa_length sample_count = Ret (l1, l2) ->
  split_on newline (line_of l1 ++ nl ++ line_of l2) = [line_of l1; line_of l2].
Proof.
  intros [F1 F2]%sample_losses_Ret.
  apply two_lines; apply no_newline_line_of; eapply entries_no_newline; eassumption.
Qed.

(** X13: the output file can be read back.  Splitting what a run writes at
    the newline and each line at the spaces gives back the two lists of the
    loop, each followed by one empty token for the trailing space: no entry
    is lost, merged or cut. *)
Theorem output_round_trip
    (ap_distance train_distance train_velocity granularity : R)
    (mantissa_length sample_count : Z) (l1 l2 : list string) :
  sample_losses ap_distance train_distance train_velocity granularity
    mantissa_length sample_count = Ret (l1, l2) ->
  map (split_on " ") (split_on newline (line_of l1 ++ nl ++ line_of l2))
  = [(l1 ++ [""])%list; (l2 ++ [""])%list].
Proof.
  intros Hrun. rewrite (entries_no_newline_lines _ _ _ _ _ _ _ _ Hrun).
  apply sample_losses_Ret in Hrun as [F1 F2]. cbn [map].
  rewrite (split_on_line_of l1), (split_on_line_of l2);
    [reflexivity | |]; eapply entries_no_space; eassumption.
Qed.

Lemma output_round_trip_witness :
  map (split_on " ")
    (split_on newline
       (line_of [format_fixed 3 (loss_formula 0.12491 (hypot 10 (92 * (0 * 0.001))))]
        ++ nl ++
        line_of [format_fixed 3
                   (loss_formula 0.12491 (hypot 10 (100 - 92 * (0 * 0.001))))]))
  = [([format_fixed 3 (loss_formula 0.12491 (hypot 10 (92 * (0 * 0.001))))]
        ++ [""])%list;
     ([format_fixed 3 (loss_formula 0.12491 (hypot 10 (100 - 92 * (0 * 0.001))))]
        ++ [""])%list].
Proof.
  apply (output_round_trip 100 10 92 0.001 3 1). exact sample_losses_first_sample.
Defined.

(** ** Unsigned output *)

Lemma digits_or_point_app (a b : string) :
  digits_or_point (a ++ b) = digits_or_point a && digits_or_point b.
Proof.
  induction a as [| x a IH]; [reflexivity |].
  change (String x a ++ b) with (String x (a ++ b)).
  cbn [digits_or_point]. rewrite IH. now rewrite andb_assoc.
Qed.

Lemma all_digits_digits_or_point (s : string) :
  all_digits s = true -> digits_or_point s = true.
Proof.
  induction s as [| x s IH]; [reflexivity |].
  cbn [all_digits digits_or_point]. intros [Hx Hs]%andb_prop.
  now rewrite Hx, (IH Hs).
Qed.

Lemma digits_or_point_unsigned_part (p : nat) (x : R) :
  digits_or_point (unsigned_part p x) = true.
Proof.
  unfold unsigned_part. cbv zeta.
  destruct (integer_digits p x) as [Hd _]. cbv zeta in Hd.
  rewrite digits_or_point_app, (all_digits_digits_or_point _ Hd).
  destruct p as [| p']; [reflexivity |].
  rewrite digits_or_point_app.
  now rewrite (all_digits_digits_or_point _ (all_digits_frac_digits _ _)).
Qed.

Lemma digits_or_point_format_fixed (p : nat) (x : R) :
  (0 <= x)%R -> digits_or_point (format_fixed p x) = true.
Proof.
  intros Hx. unfold format_fixed. destruct (Rlt_dec x 0); [lra |].
  apply digits_or_point_unsigned_part.
Qed.

Lemma entries_unsigned (ap_distance train_distance train_velocity granularity : R)
    (mantissa_length AP_number : Z) (ts : list Z) (l : list string) :
  (1 <= Rabs train_distance)%R ->
  Forall2 (fun t s => sample_entry ap_distance train_distance train_velocity
                        granularity mantissa_length AP_number t = Ret s) ts l ->
  Forall (fun s => digits_or_point s = true
                   /\ is_fixed_point (Z.to_nat mantissa_length) s = true) l.
Proof.
  intros Hd. induction 1 as [| t s ts l He _ IH]; constructor; [| exact IH].
  apply sample_entry_Ret in He as (d & Hdist & _ & _ & _ & ->).
  apply current_signal_distance_ge_abs in Hdist.
  split; [| apply is_fixed_point_format_fixed].
  apply digits_or_point_format_fixed.
  assert (21.984 < loss_formula 0.12491 d)%R
    by (apply loss_formula_lower_bound; lra).
  lra.
Qed.

(** X14: on a finite run with the track at least one metre from the line of
    the APs, as for every non-zero integer distance in range from the
    command line, each entry the loop returns is an unsigned fixed-point
    numeral: digits, and when the precision is not zero a point and exactly
    that many digits; never a minus sign. *)
Theorem sample_losses_unsigned
    (ap_distance train_distance train_velocity granularity : R)
    (mantissa_length sample_count : Z) (l1 l2 : list string) :
  finite_run ap_distance train_distance train_velocity granularity sample_count ->
  (1 <= Rabs train_distance)%R ->
  sample_losses ap_distance train_distance train_velocity granularity
    mantissa_length sample_count = Ret (l1, l2) ->
  forall s, In s l1 \/ In s l2 ->
    digits_or_point s = true
    /\ is_fixed_point (Z.to_nat mantissa_length) s = true.
Proof.
  intros _ Hd [F1 F2]%sample_losses_Ret s Hs.
  pose proof (entries_unsigned _ _ _ _ _ _ _ _ Hd F1) as U1.
  pose proof (entries_unsigned _ _ _ _ _ _ _ _ Hd F2) as U2.
  rewrite List.Forall_forall in U1, U2.
  destruct Hs as [Hs | Hs]; auto.
Qed.

Lemma sample_losses_unsigned_witness :
  digits_or_point
    (format_fixed 3 (loss_formula 0.12491 (hypot 10 (92 * (0 * 0.001))))) = true
  /\ is_fixed_point (Z.to_nat 3)
       (format_fixed 3 (loss_formula 0.12491 (hypot 10 (92 * (0 * 0.001))))) = true.
Proof.
  apply (sample_losses_unsigned 100 10 92 0.001 3 1 _ _
           (finite_run_suggested 1 ltac:(lia))
           ltac:(rewrite Rabs_pos_eq; lra) sample_losses_first_sample).
  left. now left.
Defined.

(** ** The script on three arguments *)

Lemma exit_status_ValueError (e : exn) :
  is_ValueError e -> exit_status (@Raise unit e) = 1.
Proof. intros [msg ->]. reflexivity. Qed.

Lemma script_wrong_count (prog : string) (args : list string) (w : World) :
  length args <> 3%nat ->
  script (prog :: args) w
  = (mkWorld (stdout w ++ usage_text prog) (files w), Raise (SystemExit 1)).
Proof.
  intros Hlen. unfold script. cbn [length].
  destruct (Nat.eqb_spec (S (length args)) 4) as [E | _]; [lia |].
  cbn [negb]. unfold io_bind. now rewrite usage_prints.
Qed.

Lemma script_bad_argument_run (prog sa sb sc : string) (e : exn) (w : World) :
  first_int_error sa sb sc = Some e ->
  is_ValueError e
  /\ script [prog; sa; sb; sc] w
     = (mkWorld (stdout w ++ usage_text prog) (files w), Raise e).
Proof.
  unfold first_int_error, script. cbn [length Nat.eqb negb nth].
  unfold try_except_ValueError, io_bind, lift.
  destruct (py_int sa) as [a | ea] eqn:Ea.
  - destruct (py_int sb) as [b | eb] eqn:Eb.
    + destruct (py_int sc) as [c | ec] eqn:Ec; [discriminate |].
      intros [= <-]. destruct (py_int_raises sc ec Ec) as [msg ->].
      split; [eauto | now rewrite usage_prints].
    + intros [= <-]. destruct (py_int_raises sb eb Eb) as [msg ->].
      split; [eauto | now rewrite usage_prints].
  - intros [= <-]. destruct (py_int_raises sa ea Ea) as [msg ->].
    split; [eauto | now rewrite usage_prints].
Qed.

Lemma script_parsed (prog sa sb sc : string) (a b c : Z) (w : World) :
  py_int sa = Ret a -> py_int sb = Ret b -> py_int sc = Ret c ->
  script [prog; sa; sb; sc] w
  = try_except_ValueError
      (main (IZR a) (IZR b) (IZR c)
         default_granularity default_sample_count default_mantissa_length)
      (fun msg => usage [prog; sa; sb; sc] >>> raise (ValueError msg)) w.
Proof.
  intros Ea Eb Ec. unfold script. cbn [length Nat.eqb negb nth].
  unfold try_except_ValueError, io_bind, lift. now rewrite Ea, Eb, Ec.
Qed.

Lemma script_on_the_line_run (prog sa sb sc : string) (a c : Z) (w : World) :
  py_int sa = Ret a -> py_int sb = Ret 0 -> py_int sc = Ret c ->
  script [prog; sa; sb; sc] w
  = (mkWorld (stdout w ++ usage_text prog) (files w), Raise math_domain_error).
Proof.
  intros Ea Eb Ec. rewrite (script_parsed prog sa sb sc a 0 c w Ea Eb Ec).
  unfold try_except_ValueError.
  rewrite (main_Raise (IZR a) 0 (IZR c) default_granularity default_sample_count
             default_mantissa_length math_domain_error w)
    by (apply sample_losses_on_the_line; reflexivity).
  unfold math_domain_error, io_bind. now rewrite usage_prints.
Qed.

Lemma script_valid_run (prog sa sb sc : string) (a b c : Z) (w : World) :
  py_int sa = Ret a -> py_int sb = Ret b -> py_int sc = Ret c -> b <> 0 ->
  exists l1 l2,
    sample_losses (IZR a) (IZR b) (IZR c) default_granularity
      default_mantissa_length default_sample_count = Ret (l1, l2)
    /\ script [prog; sa; sb; sc] w
       = (mkWorld (stdout w)
            (<[out_name := line_of l1 ++ nl ++ line_of l2]> (files w)),
          Raise (SystemExit 0)).
Proof.
  intros Ea Eb Ec Hb.
  destruct (sample_losses_valid (IZR a) (IZR b) (IZR c) default_granularity
              default_mantissa_length default_sample_count)
    as (l1 & l2 & Hrun); [now apply not_0_IZR | solve_precision |].
  exists l1, l2. split; [exact Hrun |].
  rewrite (script_parsed prog sa sb sc a b c w Ea Eb Ec).
  unfold try_except_ValueError. now rewrite (main_Ret _ _ _ _ _ _ l1 l2 w Hrun).
Qed.

(** X15: an argument that is not an integer.  When [int] rejects one of the
    three arguments, the script prints the usage text, raises again the
    [ValueError] of the first rejected argument (the process ends with
    status 1) and leaves every file as it was. *)
Theorem script_bad_argument (prog sa sb sc : string) (e : exn) (w : World) :
  first_int_error sa sb sc = Some e ->
  script [prog; sa; sb; sc] w
  = (mkWorld (stdout w ++ usage_text prog) (files w), Raise e)
  /\ is_ValueError e
  /\ exit_status (snd (script [prog; sa; sb; sc] w)) = 1.
Proof.
  intros H. destruct (script_bad_argument_run prog sa sb sc e w H) as [He E].
  rewrite E. repeat split; [exact He | now apply exit_status_ValueError].
Qed.

Lemma script_bad_argument_witness :
  script ["wifi_signal_simulator.py"; "100"; "abc"; "9x"] (mkWorld "" ∅)
  = (mkWorld ("" ++ usage_text "wifi_signal_simulator.py") ∅,
     Raise (ValueError "invalid literal for int() with base 10: 'abc'"))
  /\ is_ValueError (ValueError "invalid literal for int() with base 10: 'abc'")
  /\ exit_status
       (snd (script ["wifi_signal_simulator.py"; "100"; "abc"; "9x"] (mkWorld "" ∅)))
     = 1.
Proof.
  apply (script_bad_argument "wifi_signal_simulator.py" "100" "abc" "9x"
           (ValueError "invalid literal for int() with base 10: 'abc'")
           (mkWorld "" ∅)).
  reflexivity.
Defined.

(** X16: a train on the line of the APs.  When the three arguments are
    integers, the velocity is in range and the train distance is zero, the
    first sample is at distance zero from AP 1: the domain error of the
    logarithm is caught, the usage text is printed, the error is raised
    again (status 1) and no output file is written. *)
Theorem script_on_the_line (prog sa sb sc : string) (a c : Z) (w : World) :
  py_int sa = Ret a -> py_int sb = Ret 0 -> py_int sc = Ret c ->
  int_in_range c = true ->
  script [prog; sa; sb; sc] w
  = (mkWorld (stdout w ++ usage_text prog) (files w), Raise math_domain_error)
  /\ exit_status (snd (script [prog; sa; sb; sc] w)) = 1.
Proof.
  intros Ea Eb Ec _.
  rewrite (script_on_the_line_run prog sa sb sc a c w Ea Eb Ec).
  split; reflexivity.
Qed.

Lemma script_on_the_line_witness :
  script ["wifi_signal_simulator.py"; "100"; "0"; "92"] (mkWorld "" ∅)
  = (mkWorld ("" ++ usage_text "wifi_signal_simulator.py") ∅,
     Raise math_domain_error)
  /\ exit_status
       (snd (script ["wifi_signal_simulator.py"; "100"; "0"; "92"] (mkWorld "" ∅)))
     = 1.
Proof.
  apply (script_on_the_line "wifi_signal_simulator.py" "100" "0" "92" 100 92
           (mkWorld "" ∅)); reflexivity.
Defined.

(** X17: when the script succeeds.  The process ends with status 0 only
    when there are three arguments, [int] accepts all three and the train
    distance is not zero; and it does end with status 0 then, whenever the
    three integers are in range: the AP distance and the velocity may be
    negative or zero. *)
Theorem script_exit_0 (prog : string) (args : list string) (w : World) :
  (exit_status (snd (script (prog :: args) w)) = 0 ->
   exists sa sb sc a b c,
     args = [sa; sb; sc]
     /\ py_int sa = Ret a /\ py_int sb = Ret b /\ py_int sc = Ret c
     /\ b <> 0)
  /\ ((exists sa sb sc a b c,
         args = [sa; sb; sc]
         /\ py_int sa = Ret a /\ py_int sb = Ret b /\ py_int sc = Ret c
         /\ b <> 0
         /\ int_in_range a = true /\ int_in_range b = true
         /\ int_in_range c = true) ->
      exit_status (snd (script (prog :: args) w)) = 0).
Proof.
  split.
  - intros Hexit.
    destruct (Nat.eq_dec (length args) 3%nat) as [Hlen | Hlen];
      [| rewrite (script_wrong_count prog args w Hlen) in Hexit; discriminate].
    destruct args as [| sa [| sb [| sc [| extra args]]]]; try discriminate.
    destruct (first_int_error sa sb sc) as [e |] eqn:Hfirst.
    + destruct (script_bad_argument_run prog sa sb sc e w Hfirst) as [He E].
      rewrite E in Hexit. cbn [snd] in Hexit.
      rewrite (exit_status_ValueError e He) in Hexit. discriminate.
    + unfold first_int_error in Hfirst.
      destruct (py_int sa) as [a |] eqn:Ea; [| discriminate].
      destruct (py_int sb) as [b |] eqn:Eb; [| discriminate].
      destruct (py_int sc) as [c |] eqn:Ec; [| discriminate].
      exists sa, sb, sc, a, b, c. repeat split; try assumption.
      intros ->.
      rewrite (script_on_the_line_run prog sa sb sc a c w Ea Eb Ec) in Hexit.
      discriminate.
  - intros (sa & sb & sc & a & b & c & -> & Ea & Eb & Ec & Hb & _).
    destruct (script_valid_run prog sa sb sc a b c w Ea Eb Ec Hb)
      as (l1 & l2 & _ & E).
    now rewrite E.
Qed.

Lemma script_exit_0_witness :
  exit_status
    (snd (script ["wifi_signal_simulator.py"; "100"; "10"; "-92"] (mkWorld "" ∅))) = 0.
Proof.
  apply (proj2 (script_exit_0 "wifi_signal_simulator.py" ["100"; "10"; "-92"]
                  (mkWorld "" ∅))).
  exists "100", "10", "-92", 100, 10, (-92).
  split; [reflexivity |]. split; [reflexivity |]. split; [reflexivity |].
  split; [reflexivity |]. split; [lia |].
  split; [reflexivity |]. split; reflexivity.
Defined.

(** X18: what a run of the script can do when, of three arguments, those
    that are integers are in range.  It ends in an exception, with status 0
    or 1.  With status 0 standard output is untouched, the output file
    exists and no other file has changed; with status 1 the usage text has
    been printed and the files are exactly as before. *)
Theorem script_effects (prog : string) (args : list string) (w : World) :
  (length args = 3%nat -> forallb arg_in_range args = true) ->
  (snd (script (prog :: args) w) = Raise (SystemExit 0)
   /\ stdout (fst (script (prog :: args) w)) = stdout w
   /\ is_Some (files (fst (script (prog :: args) w)) !! out_name)
   /\ forall name, name <> out_name ->
        files (fst (script (prog :: args) w)) !! name = files w !! name)
  \/ (exit_status (snd (script (prog :: args) w)) = 1
      /\ (exists e, snd (script (prog :: args) w) = Raise e)
      /\ fst (script (prog :: args) w)
         = mkWorld (stdout w ++ usage_text prog) (files w)).
Proof.
  intros _.
  destruct (Nat.eq_dec (length args) 3%nat) as [Hlen | Hlen].
  - destruct args as [| sa [| sb [| sc [| extra args]]]]; try discriminate.
    destruct (script_three_arguments prog sa sb sc w)
      as [(a & b & c & l1 & l2 & _ & _ & _ & _ & E) | (msg & E)]; rewrite E.
    + left. cbn [fst snd stdout files]. repeat split.
      * rewrite lookup_insert_eq. eauto.
      * intros name Hne. now apply lookup_insert_ne.
    + right. cbn [fst snd]. repeat split. eauto.
  - right. rewrite (script_wrong_count prog args w Hlen). cbn [fst snd].
    repeat split. eauto.
Qed.

Lemma script_effects_witness :
  (snd (script ["wifi_signal_simulator.py"; "100"; "10"; "92"] (mkWorld "" ∅))
   = Raise (SystemExit 0)
   /\ stdout (fst (script ["wifi_signal_simulator.py"; "100"; "10"; "92"]
                     (mkWorld "" ∅))) = ""
   /\ is_Some (files (fst (script ["wifi_signal_simulator.py"; "100"; "10"; "92"]
                             (mkWorld "" ∅))) !! out_name)
   /\ forall name, name <> out_name ->
        files (fst (script ["wifi_signal_simulator.py"; "100"; "10"; "92"]
                      (mkWorld "" ∅))) !! name = (∅ : gmap string string) !! name)
  \/ (exit_status
        (snd (script ["wifi_signal_simulator.py"; "100"; "10"; "92"] (mkWorld "" ∅)))
      = 1
      /\ (exists e,
            snd (script ["wifi_signal_simulator.py"; "100"; "10"; "92"] (mkWorld "" ∅))
            = Raise e)
      /\ fst (script ["wifi_signal_simulator.py"; "100"; "10"; "92"] (mkWorld "" ∅))
         = mkWorld ("" ++ usage_text "wifi_signal_simulator.py") ∅).
Proof.
  pose proof (script_effects "wifi_signal_simulator.py" ["100"; "10"; "92"]
                (mkWorld "" ∅) (fun _ => eq_refl)) as H.
  cbn [stdout files] in H. exact H.
Defined.

Lemma Rabs_IZR_ge_1 (b : Z) : b <> 0 -> (1 <= Rabs (IZR b))%R.
Proof.
  intros Hb. rewrite <- abs_IZR. apply IZR_le. lia.
Qed.

(** X19: the file of a successful run from the command line.  For integer
    arguments in range with a train distance that is not zero the script
    ends with status 0 and writes two lines of 5000 entries each, every
    entry an unsigned numeral with exactly three digits after the point. *)
Theorem script_output_shape (prog sa sb sc : string) (a b c : Z) (w : World) :
  py_int sa = Ret a -> py_int sb = Ret b -> py_int sc = Ret c -> b <> 0 ->
  int_in_range a = true -> int_in_range b = true -> int_in_range c = true ->
  exists l1 l2,
    script [prog; sa; sb; sc] w
    = (mkWorld (stdout w)
         (<[out_name := line_of l1 ++ nl ++ line_of l2]> (files w)),
       Raise (SystemExit 0))
    /\ length l1 = 5000%nat /\ length l2 = 5000%nat
    /\ forall s, In s l1 \/ In s l2 ->
         digits_or_point s = true /\ is_fixed_point 3 s = true.
Proof.
  intros Ea Eb Ec Hb _ _ _.
  destruct (script_valid_run prog sa sb sc a b c w Ea Eb Ec Hb)
    as (l1 & l2 & Hrun & E).
  exists l1, l2. split; [exact E |].
  destruct (sample_losses_length _ _ _ _ _ _ _ _ Hrun) as [Hl1 Hl2].
  split; [exact Hl1 |]. split; [exact Hl2 |].
  apply sample_losses_Ret in Hrun as [F1 F2].
  pose proof (entries_unsigned _ _ _ _ _ _ _ _ (Rabs_IZR_ge_1 b Hb) F1) as U1.
  pose proof (entries_unsigned _ _ _ _ _ _ _ _ (Rabs_IZR_ge_1 b Hb) F2) as U2.
  rewrite List.Forall_forall in U1, U2.
  intros s [Hs | Hs]; auto.
Qed.

Lemma script_output_shape_witness :
  exists l1 l2,
    script ["wifi_signal_simulator.py"; "100"; "10"; "92"] (mkWorld "" ∅)
    = (mkWorld "" (<[out_name := line_of l1 ++ nl ++ line_of l2]> ∅),
       Raise (SystemExit 0))
    /\ length l1 = 5000%nat /\ length l2 = 5000%nat
    /\ forall s, In s l1 \/ In s l2 ->
         digits_or_point s = true /\ is_fixed_point 3 s = true.
Proof.
  apply (script_output_shape "wifi_signal_simulator.py" "100" "10" "92" 100 10 92
           (mkWorld "" ∅));
    [reflexivity | reflexivity | reflexivity | lia
     | reflexivity | reflexivity | reflexivity].
Defined.

(** ** Double precision: powers of two and rounding *)







































(** ** The loss in double precision *)










